(** * bash-language-server: the request layer ([server/src/server.ts])

    A shallow embedding of [BashServer], the class that glues the Analyzer,
    the PATH executables, the builtin and reserved-word tables and the
    configuration into handlers of the Language Server Protocol, followed by
    the properties of its handlers.

    Conventions of the embedding.
    - A JavaScript [string | null] is an [option string]; JavaScript
      truthiness of such a value is [truthy].
    - The collaborators imported at the top of [server.ts] ([./analyser],
      [./executables], [./builtins], [./reservedWords], [./config],
      [./parser], [turndown]) are interfaces: one type class each.
    - Observable effects ([console.log], [sendDiagnostics], calls that
      mutate or leave the process) are recorded in a trace; a computation is
      a pair of the trace it emits and its result ([Eff]).
    - A promise is represented by what becomes of it ([Outcome]); [await]
      and [try]/[catch] are the combinators [await] and [try_catch]. *)

From Stdlib Require Import List String Ascii Bool Arith Lia.
From Stdlib Require Import DecimalString.
Import ListNotations.
Open Scope string_scope.
Open Scope list_scope.

Set Implicit Arguments.

(** ** JavaScript strings and truthiness *)

Module JS.

(** [s.startsWith(search)] *)
Fixpoint startsWith (s search : string) {struct search} : bool :=
  match search with
  | EmptyString => true
  | String c search' =>
      match s with
      | EmptyString => false
      | String d s' => Ascii.eqb d c && startsWith s' search'
      end
  end.

(** Truthiness of a [string | null]: [null] and the empty string are
    falsy, every other string is truthy. *)
Definition truthy (v : option string) : bool :=
  match v with
  | None => false
  | Some EmptyString => false
  | Some (String _ _) => true
  end.

(** [xs.join(sep)] on an array of strings *)
Fixpoint join (sep : string) (xs : list string) : string :=
  match xs with
  | [] => EmptyString
  | [x] => x
  | x :: rest => x ++ sep ++ join sep rest
  end.

(** A number inside a template literal: decimal digits. *)
Definition show_nat (n : nat) : string :=
  NilZero.string_of_uint (Nat.to_uint n).

(** The line feed of ['\n']. *)
Definition nl : string := String (ascii_of_nat 10) EmptyString.

End JS.

(** ** Promises and traced computations *)

(** The value a promise is rejected with. *)
Definition Error := string.

(** What becomes of a promise: it is fulfilled, it is rejected, or it never
    settles. *)
Inductive Outcome (A : Type) : Type :=
| Resolved (a : A)
| Rejected (e : Error)
| Pending.

Arguments Resolved {A} a.
Arguments Rejected {A} e.
Arguments Pending {A}.

(** [p.then(f)] for a callback that does not throw. *)
Definition then_ {A B : Type} (p : Outcome A) (f : A -> B) : Outcome B :=
  match p with
  | Resolved a => Resolved (f a)
  | Rejected e => Rejected e
  | Pending => Pending
  end.

(** Which of the two promises handed to [Promise.all] settles first. *)
Inductive Schedule : Type := FirstSettlesFirst | SecondSettlesFirst.

(** [Promise.all([p, q])]: fulfilled with both values once both are
    fulfilled; rejected as soon as one of them is rejected, with the reason
    of the one that was rejected first. *)
Definition promise_all2 {A B : Type} (sch : Schedule)
    (p : Outcome A) (q : Outcome B) : Outcome (A * B) :=
  match p, q with
  | Resolved a, Resolved b => Resolved (a, b)
  | Rejected e1, Rejected e2 =>
      match sch with
      | FirstSettlesFirst => Rejected e1
      | SecondSettlesFirst => Rejected e2
      end
  | Rejected e1, _ => Rejected e1
  | _, Rejected e2 => Rejected e2
  | _, _ => Pending
  end.

(** ** Protocol data ([vscode-languageserver]) *)

Module LSP.

(** A connection to a client is an object; only its identity matters. *)
Record Connection : Type := { conn_id : nat }.

Record Position : Type := { line : nat; character : nat }.

Record Range : Type := { range_start : Position; range_end : Position }.

Record Location : Type := { loc_uri : string; loc_range : Range }.

Record Diagnostic : Type :=
  { diag_range : Range; diag_message : string; diag_severity : nat }.

Record TextDocument : Type :=
  { doc_uri : string; doc_version : nat; doc_text : string }.

Record TextDocumentChangeEvent : Type := { document : TextDocument }.

Record TextDocumentIdentifier : Type := { uri : string }.

(** [TextDocumentPositionParams] (and [ReferenceParams], of which the
    server reads the same two fields). *)
Record TextDocumentPositionParams : Type :=
  { textDocument : TextDocumentIdentifier; position : Position }.

Record InitializeParams : Type := { rootPath : option string }.

(** [SymbolKind] is a numeric enumeration. *)
Definition SymbolKind := nat.
Definition SymbolKind_Interface : SymbolKind := 11.
Definition SymbolKind_Function : SymbolKind := 12.

Record SymbolInformation : Type :=
  { sym_name : string; sym_kind : SymbolKind; sym_location : Location }.

Inductive MarkupKind : Type := plaintext | markdown.

Record MarkupContent : Type := { mc_kind : MarkupKind; mc_value : string }.

Record Hover : Type := { contents : MarkupContent }.

(** [DocumentHighlight]: a range and an optional highlight kind. *)
Record DocumentHighlight : Type :=
  { hl_range : Range; hl_kind : option nat }.

End LSP.

(** ** [./types] *)

(** Modelled from the spec: the declaration of [CompletionItemDataType]
    (in [types.ts], which is not among the sources). The spec lists the
    origins of a completion candidate as symbols, reserved words, builtins
    and executables; [server.ts] names three of them. *)
Inductive CompletionItemDataType : Type :=
| Builtin
| Executable
| ReservedWord
| Symbol.

Record CompletionItemData : Type :=
  { name : string; type : CompletionItemDataType }.

(** [BashCompletionItem]: an [LSP.CompletionItem] whose [data] is present.
    Of the optional fields of a completion item [documentation] is the one
    the server writes; [detail] stands for the others, which it only
    copies. *)
Record BashCompletionItem : Type :=
  { label : string;
    kind : LSP.SymbolKind;
    detail : option string;
    documentation : option LSP.MarkupContent;
    data : CompletionItemData }.

(** ** Observable effects *)

Inductive DocSource : Type := FromBuiltins | FromReservedWords | FromExecutables.

Inductive Event : Type :=
| ConsoleLog (c : LSP.Connection) (msg : string)
| SendDiagnostics (c : LSP.Connection) (uri : string)
                  (diagnostics : list LSP.Diagnostic)
| DocumentsListen (c : LSP.Connection)
| AnalyzerAnalyze (uri : string) (doc : LSP.TextDocument)
| InitializeParser
| ExecutablesFromPath (path : option string)
| AnalyzerFromRoot (c : LSP.Connection) (rootPath : option string)
| ExplainshellQuery (endpoint : string) (params : LSP.TextDocumentPositionParams)
| DocumentationLookup (src : DocSource) (word : option string).

Definition Trace := list Event.

(** A computation: the trace it emits and its result. *)
Definition Eff (A : Type) : Type := (Trace * A)%type.

Definition ret {A : Type} (a : A) : Eff A := ([], a).

Definition bind {A B : Type} (m : Eff A) (k : A -> Eff B) : Eff B :=
  let (t1, a) := m in
  let (t2, b) := k a in
  (t1 ++ t2, b).

Definition emit (e : Event) : Eff unit := ([e], tt).

(** [const x = await m; k x] inside an [async] function: the rest of the
    function runs only if the awaited promise is fulfilled; a rejection
    rejects the function's own promise, and a promise that never settles
    leaves it pending. *)
Definition await {A B : Type} (m : Eff (Outcome A))
    (k : A -> Eff (Outcome B)) : Eff (Outcome B) :=
  let (t1, o) := m in
  match o with
  | Resolved a => let (t2, r) := k a in (t1 ++ t2, r)
  | Rejected e => (t1, Rejected e)
  | Pending => (t1, Pending)
  end.

(** [try { body } catch (error) { handler }] around awaited code. *)
Definition try_catch {A : Type} (body : Eff (Outcome A))
    (handler : Error -> Eff (Outcome A)) : Eff (Outcome A) :=
  let (t1, o) := body in
  match o with
  | Rejected e => let (t2, r) := handler e in (t1 ++ t2, r)
  | _ => (t1, o)
  end.

Declare Scope eff_scope.
Delimit Scope eff_scope with eff.
Notation "x <- m ;; k" := (bind m (fun x => k))
  (at level 61, m at next level, right associativity) : eff_scope.
Notation "m ;;; k" := (bind m (fun _ => k))
  (at level 61, right associativity) : eff_scope.
Notation "x <~ m ;; k" := (await m (fun x => k))
  (at level 61, m at next level, right associativity) : eff_scope.
Open Scope eff_scope.

(** The value and the trace of a computation. *)
Definition result {A : Type} (m : Eff A) : A := snd m.
Definition trace {A : Type} (m : Eff A) : Trace := fst m.

(** ** The collaborators imported by [server.ts]

    None of these modules is part of the request layer; each is taken as an
    interface with the operations [server.ts] calls, at the types it calls
    them with (the cursor word handed to them is a [string | null]). *)

(** [./parser] *)
Module Parser.
Class Ops (P : Type) : Type :=
  { initializeParser : Outcome P }.
End Parser.

(** The answer of the explainshell service as [onHover] reads it. *)
Record ExplainshellResponse : Type :=
  { status : string; helpHTML : string }.

(** [./analyser]. The Analyzer is a mutable object: [analyze] returns the
    diagnostics together with the Analyzer after the call, every other
    operation reads it. *)
Module Analyzer.
Class Ops (P A : Type) : Type :=
  { fromRoot : LSP.Connection -> option string -> P -> Outcome A;
    analyze : A -> string -> LSP.TextDocument -> list LSP.Diagnostic * A;
    wordAtPoint : A -> string -> nat -> nat -> option string;
    findDefinition : A -> option string -> list LSP.Location;
    findReferences : A -> option string -> list LSP.Location;
    findOccurrences : A -> string -> option string -> list LSP.Location;
    findSymbols : A -> string -> list LSP.SymbolInformation;
    search : A -> string -> list LSP.SymbolInformation;
    findSymbolCompletions : A -> string -> list BashCompletionItem;
    getExplainshellDocumentation :
      A -> LSP.TextDocumentPositionParams -> string ->
      Outcome ExplainshellResponse }.
End Analyzer.

(** [./executables] *)
Module Executables.
Class Ops (E : Type) : Type :=
  { fromPath : option string -> Outcome E;
    isExecutableOnPATH : E -> option string -> bool;
    documentation : E -> option string -> Outcome string;
    list : E -> Datatypes.list string }.
End Executables.

(** [./builtins] *)
Module Builtins.
Class Ops : Type :=
  { LIST : list string;
    isBuiltin : option string -> bool;
    documentation : option string -> Outcome string }.
End Builtins.

(** [./reservedWords] *)
Module ReservedWords.
Class Ops : Type :=
  { LIST : list string;
    isReservedWord : option string -> bool;
    documentation : option string -> Outcome string }.
End ReservedWords.

(** [./config]: both settings are read from the process environment. *)
Module config.
Class Ops : Type :=
  { getExplainshellEndpoint : option string;
    getHighlightParsingError : bool }.
End config.

(** What the server takes from the JavaScript runtime and from [turndown]:
    [process.env.PATH], the order in which the two start-up scans settle,
    [new TurndownService().turndown], [JSON.stringify(response, null, 4)]
    and the text of a [CompletionItemDataType] in a template literal. *)
Module Runtime.
Class Ops : Type :=
  { env_PATH : option string;
    scan_schedule : Schedule;
    turndown : string -> string;
    JSON_stringify : ExplainshellResponse -> string;
    show_type : CompletionItemDataType -> string }.
End Runtime.

Definition CompletionItemDataType_eqb (a b : CompletionItemDataType) : bool :=
  match a, b with
  | Builtin, Builtin | Executable, Executable
  | ReservedWord, ReservedWord | Symbol, Symbol => true
  | _, _ => false
  end.

Open Scope string_scope.

(** The double quote of a template literal. *)
Definition dquote : string := String (ascii_of_nat 34) EmptyString.

(** [['``` man', doc, '```'].join('\n')] as [LSP.MarkupContent] *)
Definition manPage (doc : string) : LSP.MarkupContent :=
  {| LSP.mc_kind := LSP.markdown;
     LSP.mc_value := JS.join JS.nl ["``` man"; doc; "```"] |}.

(** ** [class BashServer] *)

Section BashServer.

Context {P A E : Type}.
Context {parserOps : Parser.Ops P}
        {analyzerOps : Analyzer.Ops P A}
        {executablesOps : Executables.Ops E}
        {builtinsOps : Builtins.Ops}
        {reservedWordsOps : ReservedWords.Ops}
        {configOps : config.Ops}
        {runtimeOps : Runtime.Ops}.

(** The fields of a [BashServer]. ([documents], the protocol library's
    own store of open documents, is only listened to.) *)
Record BashServer : Type :=
  { connection : LSP.Connection;
    executables : E;
    analyzer : A }.

(** [BashServer.initialize]. Each of the three start-up steps is a
    promise and fails by rejecting it; a collaborator that throws before
    it returns its promise is outside this embedding. *)
Definition initialize (connection : LSP.Connection)
    (params : LSP.InitializeParams) : Eff (Outcome BashServer) :=
  parser <~ (emit InitializeParser ;;; ret Parser.initializeParser) ;;
  xs <~ (emit (ExecutablesFromPath Runtime.env_PATH) ;;;
         emit (AnalyzerFromRoot connection (LSP.rootPath params)) ;;;
         ret (promise_all2 Runtime.scan_schedule
                (Executables.fromPath Runtime.env_PATH)
                (Analyzer.fromRoot connection (LSP.rootPath params) parser))) ;;
  ret (Resolved {| connection := connection;
                   executables := fst xs;
                   analyzer := snd xs |}).

(** The listener [register] installs with [documents.onDidChangeContent].
    [conn] is the [connection] argument of [register] (not the field
    [this.connection]); the Analyzer of the server is the one after the
    call of [analyze]. *)
Definition onDidChangeContent (this : BashServer)
    (conn : LSP.Connection) (change : LSP.TextDocumentChangeEvent)
    : Eff BashServer :=
  let uri := LSP.doc_uri (LSP.document change) in
  emit (AnalyzerAnalyze uri (LSP.document change)) ;;;
  let (diagnostics, analyzer') :=
    Analyzer.analyze (analyzer this) uri (LSP.document change) in
  let this' := {| connection := this.(connection);
                  executables := this.(executables);
                  analyzer := analyzer' |} in
  if config.getHighlightParsingError
  then emit (SendDiagnostics conn
               (LSP.doc_uri (LSP.document change)) diagnostics) ;;;
       ret this'
  else ret this'.

(** [getWordAtPoint] *)
Definition getWordAtPoint (this : BashServer)
    (params : LSP.TextDocumentPositionParams) : option string :=
  Analyzer.wordAtPoint (analyzer this)
    (LSP.uri (LSP.textDocument params))
    (LSP.line (LSP.position params))
    (LSP.character (LSP.position params)).

(** [logRequest] *)
Definition logRequest (this : BashServer) (request : string)
    (params : LSP.TextDocumentPositionParams) (word : option string)
    : Eff unit :=
  let wordLog :=
    match word with
    | Some w => if JS.truthy word then dquote ++ w ++ dquote else EmptyString
    | None => EmptyString
    end in
  emit (ConsoleLog this.(connection)
          (request ++ " " ++ JS.show_nat (LSP.line (LSP.position params))
             ++ ":" ++ JS.show_nat (LSP.character (LSP.position params))
             ++ " " ++ wordLog)).

(** [getMarkdownHoverItem], wrapped as the hover the callbacks return. *)
Definition markdownHover (doc : string) : option LSP.Hover :=
  Some {| LSP.contents := manPage doc |}.

(** The explainshell block of [onHover] (lines 133-153): [Some hover] when
    the block returns from [onHover], [None] when control goes on to the
    lookups below it. *)
Definition explainshellHover (this : BashServer)
    (params : LSP.TextDocumentPositionParams)
    : Eff (Outcome (option LSP.Hover)) :=
  let explainshellEndpoint := config.getExplainshellEndpoint in
  match explainshellEndpoint with
  | Some endpoint =>
      if JS.truthy explainshellEndpoint then
        emit (ConsoleLog this.(connection) ("Query " ++ endpoint)) ;;;
        response <~ (emit (ExplainshellQuery endpoint params) ;;;
                     ret (Analyzer.getExplainshellDocumentation
                            (analyzer this) params endpoint)) ;;
        if String.eqb (status response) "error" then
          emit (ConsoleLog this.(connection)
                  ("getExplainshellDocumentation returned: "
                     ++ Runtime.JSON_stringify response)) ;;;
          ret (Resolved None)
        else
          ret (Resolved (Some
            {| LSP.contents :=
                 {| LSP.mc_kind := LSP.markdown;
                    LSP.mc_value := Runtime.turndown (helpHTML response) |} |}))
      else ret (Resolved None)
  | None => ret (Resolved None)
  end.

(** The lookups of [onHover] below the explainshell block (lines
    162-180). *)
Definition documentationHover (this : BashServer) (word : option string)
    : Eff (Outcome (option LSP.Hover)) :=
  if Builtins.isBuiltin word then
    emit (DocumentationLookup FromBuiltins word) ;;;
    ret (then_ (Builtins.documentation word) markdownHover)
  else if ReservedWords.isReservedWord word then
    emit (DocumentationLookup FromReservedWords word) ;;;
    ret (then_ (ReservedWords.documentation word) markdownHover)
  else if Executables.isExecutableOnPATH (executables this) word then
    emit (DocumentationLookup FromExecutables word) ;;;
    ret (then_ (Executables.documentation (executables this) word)
           markdownHover)
  else ret (Resolved None).

(** [onHover] *)
Definition onHover (this : BashServer)
    (params : LSP.TextDocumentPositionParams)
    : Eff (Outcome (option LSP.Hover)) :=
  let word := getWordAtPoint this params in
  logRequest this "onHover" params word ;;;
  early <~ explainshellHover this params ;;
  match early with
  | Some hover => ret (Resolved (Some hover))
  | None => documentationHover this word
  end.

(** [onDefinition] *)
Definition onDefinition (this : BashServer)
    (params : LSP.TextDocumentPositionParams) : Eff (list LSP.Location) :=
  let word := getWordAtPoint this params in
  logRequest this "onDefinition" params word ;;;
  ret (Analyzer.findDefinition (analyzer this) word).

(** [onDocumentSymbol] *)
Definition onDocumentSymbol (this : BashServer)
    (params : LSP.TextDocumentIdentifier)
    : Eff (list LSP.SymbolInformation) :=
  emit (ConsoleLog this.(connection) "onDocumentSymbol") ;;;
  ret (Analyzer.findSymbols (analyzer this) (LSP.uri params)).

(** [onWorkspaceSymbol] *)
Definition onWorkspaceSymbol (this : BashServer) (query : string)
    : Eff (list LSP.SymbolInformation) :=
  emit (ConsoleLog this.(connection) "onWorkspaceSymbol") ;;;
  ret (Analyzer.search (analyzer this) query).

(** [onDocumentHighlight] *)
Definition onDocumentHighlight (this : BashServer)
    (params : LSP.TextDocumentPositionParams)
    : Eff (list LSP.DocumentHighlight) :=
  let word := getWordAtPoint this params in
  logRequest this "onDocumentHighlight" params word ;;;
  ret (map (fun n => {| LSP.hl_range := LSP.loc_range n;
                        LSP.hl_kind := None |})
         (Analyzer.findOccurrences (analyzer this)
            (LSP.uri (LSP.textDocument params)) word)).

(** [onReferences] *)
Definition onReferences (this : BashServer)
    (params : LSP.TextDocumentPositionParams) : Eff (list LSP.Location) :=
  let word := getWordAtPoint this params in
  logRequest this "onReferences" params word ;;;
  ret (Analyzer.findReferences (analyzer this) word).

(** The four groups of candidates [onCompletion] puts together. *)
Definition reservedWordsCompletions : list BashCompletionItem :=
  map (fun reservedWord =>
         {| label := reservedWord;
            kind := LSP.SymbolKind_Interface;
            detail := None;
            documentation := None;
            data := {| name := reservedWord; type := ReservedWord |} |})
      ReservedWords.LIST.

Definition programCompletions (this : BashServer) : list BashCompletionItem :=
  map (fun s =>
         {| label := s;
            kind := LSP.SymbolKind_Function;
            detail := None;
            documentation := None;
            data := {| name := s; type := Executable |} |})
      (Executables.list (executables this)).

Definition builtinsCompletions : list BashCompletionItem :=
  map (fun builtin =>
         {| label := builtin;
            kind := LSP.SymbolKind_Interface;
            detail := None;
            documentation := None;
            data := {| name := builtin; type := Builtin |} |})
      Builtins.LIST.

Definition allCompletions (this : BashServer)
    (params : LSP.TextDocumentPositionParams) : list BashCompletionItem :=
  (reservedWordsCompletions
     ++ Analyzer.findSymbolCompletions (analyzer this)
          (LSP.uri (LSP.textDocument params))
     ++ programCompletions this
     ++ builtinsCompletions)%list.

(** [onCompletion] *)
Definition onCompletion (this : BashServer)
    (params : LSP.TextDocumentPositionParams)
    : Eff (list BashCompletionItem) :=
  let word := getWordAtPoint this params in
  logRequest this "onCompletion" params word ;;;
  let allCompletions := allCompletions this params in
  match word with
  | Some w =>
      if JS.truthy word then
        if JS.startsWith w "#" then ret []
        else ret (filter (fun item => JS.startsWith (label item) w)
                    allCompletions)
      else ret allCompletions
  | None => ret allCompletions
  end.

(** [getMarkdownCompletionItem]: the item with its [documentation] set. *)
Definition getMarkdownCompletionItem (item : BashCompletionItem)
    (doc : string) : BashCompletionItem :=
  {| label := label item;
     kind := kind item;
     detail := detail item;
     documentation := Some (manPage doc);
     data := data item |}.

(** [onCompletionResolve] *)
Definition onCompletionResolve (this : BashServer)
    (item : BashCompletionItem) : Eff (Outcome BashCompletionItem) :=
  let name := name (data item) in
  let type := type (data item) in
  emit (ConsoleLog this.(connection)
          ("onCompletionResolve name=" ++ name
             ++ " type=" ++ Runtime.show_type type)) ;;;
  try_catch
    (if CompletionItemDataType_eqb type Executable then
       doc <~ (emit (DocumentationLookup FromExecutables (Some name)) ;;;
               ret (Executables.documentation (executables this) (Some name))) ;;
       ret (Resolved (getMarkdownCompletionItem item doc))
     else if CompletionItemDataType_eqb type Builtin then
       doc <~ (emit (DocumentationLookup FromBuiltins (Some name)) ;;;
               ret (Builtins.documentation (Some name))) ;;
       ret (Resolved (getMarkdownCompletionItem item doc))
     else if CompletionItemDataType_eqb type ReservedWord then
       doc <~ (emit (DocumentationLookup FromReservedWords (Some name)) ;;;
               ret (ReservedWords.documentation (Some name))) ;;
       ret (Resolved (getMarkdownCompletionItem item doc))
     else ret (Resolved item))
    (fun _ => ret (Resolved item)).

(** The handlers [register] hands to the connection. Each one is bound to
    the server ([.bind(this)]); as the Analyzer of the server changes with
    every content change, a handler takes the server as it is when the
    request arrives. *)
Record Handlers : Type :=
  { didChangeContent : BashServer -> LSP.TextDocumentChangeEvent -> Eff BashServer;
    hover : BashServer -> LSP.TextDocumentPositionParams ->
            Eff (Outcome (option LSP.Hover));
    definition : BashServer -> LSP.TextDocumentPositionParams ->
                 Eff (list LSP.Location);
    documentSymbol : BashServer -> LSP.TextDocumentIdentifier ->
                     Eff (list LSP.SymbolInformation);
    workspaceSymbol : BashServer -> string -> Eff (list LSP.SymbolInformation);
    documentHighlight : BashServer -> LSP.TextDocumentPositionParams ->
                        Eff (list LSP.DocumentHighlight);
    references : BashServer -> LSP.TextDocumentPositionParams ->
                 Eff (list LSP.Location);
    completion : BashServer -> LSP.TextDocumentPositionParams ->
                 Eff (list BashCompletionItem);
    completionResolve : BashServer -> BashCompletionItem ->
                        Eff (Outcome BashCompletionItem) }.

(** [register] *)
Definition register (this : BashServer) (conn : LSP.Connection)
    : Eff Handlers :=
  emit (DocumentsListen this.(connection)) ;;;
  ret {| didChangeContent := fun this change => onDidChangeContent this conn change;
         hover := onHover;
         definition := onDefinition;
         documentSymbol := onDocumentSymbol;
         workspaceSymbol := onWorkspaceSymbol;
         documentHighlight := onDocumentHighlight;
         references := onReferences;
         completion := onCompletion;
         completionResolve := onCompletionResolve |}.

End BashServer.

Arguments BashServer : clear implicits.
Arguments Handlers : clear implicits.

(** ** A small workspace to run the handlers on

    Concrete collaborators, simple enough to evaluate: the Analyzer keeps the
    text of every document it has analyzed and splits it at blanks; a token
    that ends in [()] declares a function. They serve to evaluate the
    handlers on concrete requests; no property below depends on them. *)

Module Demo.

Definition isSpace (c : ascii) : bool := Ascii.eqb c " "%char.

(** The blank-separated tokens of a line with their start columns. *)
Fixpoint tokensFrom (s : string) (col : nat) : list (nat * string) :=
  match s with
  | EmptyString => []
  | String c r =>
      if isSpace c then tokensFrom r (S col)
      else match tokensFrom r (S col) with
           | (k, w) :: rest =>
               if Nat.eqb k (S col) then (col, String c w) :: rest
               else (col, String c EmptyString) :: (k, w) :: rest
           | [] => [(col, String c EmptyString)]
           end
  end.

Definition tokens (s : string) : list (nat * string) := tokensFrom s 0.

Definition rangeOf (tok : nat * string) : LSP.Range :=
  {| LSP.range_start := {| LSP.line := 0; LSP.character := fst tok |};
     LSP.range_end := {| LSP.line := 0;
                         LSP.character := fst tok + String.length (snd tok) |} |}.

Definition covers (col : nat) (tok : nat * string) : bool :=
  Nat.leb (fst tok) col && Nat.ltb col (fst tok + String.length (snd tok)).

Definition Store := list LSP.TextDocument.

Definition lookupDoc (st : Store) (uri : string) : option LSP.TextDocument :=
  find (fun d => String.eqb (LSP.doc_uri d) uri) st.

Definition textOf (st : Store) (uri : string) : string :=
  match lookupDoc st uri with
  | Some d => LSP.doc_text d
  | None => EmptyString
  end.

Definition isWord (word : option string) (tok : nat * string) : bool :=
  match word with
  | Some w => String.eqb (snd tok) w
  | None => false
  end.

(** [foo()] declares [foo]. *)
Fixpoint declared (s : string) : option string :=
  match s with
  | "()" => Some EmptyString
  | String c r => option_map (String c) (declared r)
  | EmptyString => None
  end.

Definition declares (word : option string) (tok : nat * string) : bool :=
  match word, declared (snd tok) with
  | Some w, Some f => String.eqb f w
  | _, _ => false
  end.

Definition locationsIn (keep : nat * string -> bool) (d : LSP.TextDocument)
    : list LSP.Location :=
  map (fun tok => {| LSP.loc_uri := LSP.doc_uri d; LSP.loc_range := rangeOf tok |})
      (filter keep (tokens (LSP.doc_text d))).

Definition symbolItems (s : string) : list BashCompletionItem :=
  flat_map (fun tok =>
              match declared (snd tok) with
              | Some f => [ {| label := f;
                               kind := LSP.SymbolKind_Function;
                               detail := None;
                               documentation := None;
                               data := {| name := f; type := Symbol |} |} ]
              | None => []
              end)
           (tokens s).

Definition parser (ok : bool) : Parser.Ops unit :=
  {| Parser.initializeParser :=
       if ok then Resolved tt else Rejected "cannot load the grammar" |}.

Definition analyzerOf (rootOk : bool) (explain : Outcome ExplainshellResponse)
    : Analyzer.Ops unit Store :=
  {| Analyzer.fromRoot := fun _ root _ =>
       if rootOk then Resolved [] else Rejected "cannot read the root directory";
     Analyzer.analyze := fun st uri doc =>
       (if String.eqb (LSP.doc_text doc) EmptyString
        then [ {| LSP.diag_range := rangeOf (0, EmptyString);
                  LSP.diag_message := "empty script";
                  LSP.diag_severity := 1 |} ]
        else [],
        doc :: filter (fun d => negb (String.eqb (LSP.doc_uri d) uri)) st);
     Analyzer.wordAtPoint := fun st uri line col =>
       match line with
       | 0 => option_map snd (find (covers col) (tokens (textOf st uri)))
       | S _ => None
       end;
     Analyzer.findDefinition := fun st word =>
       flat_map (locationsIn (declares word)) st;
     Analyzer.findReferences := fun st word =>
       flat_map (locationsIn (isWord word)) st;
     Analyzer.findOccurrences := fun st uri word =>
       match lookupDoc st uri with
       | Some d => locationsIn (isWord word) d
       | None => []
       end;
     Analyzer.findSymbols := fun _ _ => [];
     Analyzer.search := fun _ _ => [];
     Analyzer.findSymbolCompletions := fun st uri => symbolItems (textOf st uri);
     Analyzer.getExplainshellDocumentation := fun _ _ _ => explain |}.

Definition execs (pathOk : bool) (man : Outcome string)
    : Executables.Ops (list string) :=
  {| Executables.fromPath := fun _ =>
       if pathOk then Resolved ["ls"; "echo"; "grep"]
       else Rejected "cannot scan PATH";
     Executables.isExecutableOnPATH := fun e word =>
       match word with
       | Some w => existsb (String.eqb w) e
       | None => false
       end;
     Executables.documentation := fun _ _ => man;
     Executables.list := fun e => e |}.

Definition builtins : Builtins.Ops :=
  {| Builtins.LIST := ["cd"; "echo"; "export"];
     Builtins.isBuiltin := fun word =>
       match word with
       | Some w => existsb (String.eqb w) ["cd"; "echo"; "export"]
       | None => false
       end;
     Builtins.documentation := fun word =>
       match word with
       | Some w => Resolved ("help " ++ w)
       | None => Rejected "no word"
       end |}.

Definition reservedWords : ReservedWords.Ops :=
  {| ReservedWords.LIST := ["if"; "then"; "else"; "fi"];
     ReservedWords.isReservedWord := fun word =>
       match word with
       | Some w => existsb (String.eqb w) ["if"; "then"; "else"; "fi"]
       | None => false
       end;
     ReservedWords.documentation := fun word =>
       match word with
       | Some w => Resolved ("reserved " ++ w)
       | None => Rejected "no word"
       end |}.

Definition cfg (endpoint : option string) (highlight : bool) : config.Ops :=
  {| config.getExplainshellEndpoint := endpoint;
     config.getHighlightParsingError := highlight |}.

Definition runtime (sch : Schedule) : Runtime.Ops :=
  {| Runtime.env_PATH := Some "/usr/bin:/bin";
     Runtime.scan_schedule := sch;
     Runtime.turndown := fun html => "md:" ++ html;
     Runtime.JSON_stringify := fun r => "{status: " ++ status r ++ "}";
     Runtime.show_type := fun t =>
       match t with
       | Builtin => "0" | Executable => "1" | ReservedWord => "2" | Symbol => "3"
       end |}.

Definition client : LSP.Connection := {| LSP.conn_id := 1 |}.

Definition script : LSP.TextDocument :=
  {| LSP.doc_uri := "file:///a.sh";
     LSP.doc_version := 1;
     LSP.doc_text := "build() echo #todo ec build" |}.

Definition server : BashServer Store (list string) :=
  {| connection := client;
     executables := ["ls"; "echo"; "grep"];
     analyzer := [script] |}.

Definition at_col (col : nat) : LSP.TextDocumentPositionParams :=
  {| LSP.textDocument := {| LSP.uri := "file:///a.sh" |};
     LSP.position := {| LSP.line := 0; LSP.character := col |} |}.

Definition explainOk : Outcome ExplainshellResponse :=
  Resolved {| status := "success"; helpHTML := "<b>echo</b>" |}.

Definition explainError : Outcome ExplainshellResponse :=
  Resolved {| status := "error"; helpHTML := EmptyString |}.

Definition endpoint : string := "http://localhost:5000".

(** The server a successful start-up yields. *)
Definition started : BashServer Store (list string) :=
  {| connection := client;
     executables := ["ls"; "echo"; "grep"];
     analyzer := [] |}.

(** A scan of PATH that never settles. *)
Definition execsPending : Executables.Ops (list string) :=
  {| Executables.fromPath := fun _ => Pending;
     Executables.isExecutableOnPATH := fun _ _ => false;
     Executables.documentation := fun _ _ => Pending;
     Executables.list := fun e => e |}.

(** The collaborators taken when nothing else is said: all of them
    succeed, explainshell is not configured, diagnostics are shown. *)
Module Defaults.
#[export] Instance parserOps : Parser.Ops unit := parser true.
#[export] Instance analyzerOps : Analyzer.Ops unit Store :=
  analyzerOf true explainError.
#[export] Instance executablesOps : Executables.Ops (list string) :=
  execs true (Resolved "man page").
#[export] Instance builtinsOps : Builtins.Ops := builtins.
#[export] Instance reservedWordsOps : ReservedWords.Ops := reservedWords.
#[export] Instance configOps : config.Ops := cfg None true.
#[export] Instance runtimeOps : Runtime.Ops := runtime FirstSettlesFirst.
End Defaults.

End Demo.

(** ** Vocabulary of the properties *)

Definition isAnalyze (e : Event) : bool :=
  match e with AnalyzerAnalyze _ _ => true | _ => false end.

Definition isSendDiagnostics (e : Event) : bool :=
  match e with SendDiagnostics _ _ _ => true | _ => false end.

Definition isRejected {A : Type} (o : Outcome A) : bool :=
  match o with Rejected _ => true | _ => false end.

Section Vocabulary.

Context {P A E : Type}.
Context {analyzerOps : Analyzer.Ops P A}
        {executablesOps : Executables.Ops E}
        {builtinsOps : Builtins.Ops}
        {reservedWordsOps : ReservedWords.Ops}
        {configOps : config.Ops}.

(** The documentation lookup [onCompletionResolve] makes for an item, if
    it makes one. *)
Definition documentationOf (this : BashServer A E)
    (item : BashCompletionItem) : option (Outcome string) :=
  match type (data item) with
  | Executable =>
      Some (Executables.documentation (executables this)
              (Some (name (data item))))
  | Builtin => Some (Builtins.documentation (Some (name (data item))))
  | ReservedWord =>
      Some (ReservedWords.documentation (Some (name (data item))))
  | Symbol => None
  end.

(** The explainshell block of [onHover] yields no hover: the endpoint is
    not set (or is the empty string), or the service answered with status
    [error]. *)
Definition noExplainshellHover (this : BashServer A E)
    (params : LSP.TextDocumentPositionParams) : Prop :=
  JS.truthy config.getExplainshellEndpoint = false
  \/ exists endpoint response,
       config.getExplainshellEndpoint = Some endpoint
       /\ Analyzer.getExplainshellDocumentation (analyzer this) params endpoint
          = Resolved response
       /\ status response = "error".

End Vocabulary.

(** What else a trace may hold. *)
Definition isLookup (e : Event) : bool :=
  match e with DocumentationLookup _ _ => true | _ => false end.

Definition isExplainshellQuery (e : Event) : bool :=
  match e with ExplainshellQuery _ _ => true | _ => false end.

(** The candidates shown under a given label. *)
Definition labelled (s : string) (item : BashCompletionItem) : bool :=
  String.eqb (label item) s.

(** Collaborators that fail, for the workspace of [Demo]. *)
Module Faults.

(** [help] has no page for any builtin. *)
Definition builtinsNoHelp : Builtins.Ops :=
  {| Builtins.LIST := ["cd"; "echo"; "export"];
     Builtins.isBuiltin := fun word =>
       match word with
       | Some w => existsb (String.eqb w) ["cd"; "echo"; "export"]
       | None => false
       end;
     Builtins.documentation := fun _ => Rejected "help: no help topics match" |}.

(** The explainshell service cannot be reached. *)
Definition analyzerOffline : Analyzer.Ops unit Demo.Store :=
  Demo.analyzerOf true (Rejected "explainshell: connection refused").

Definition echoBuiltin : BashCompletionItem :=
  {| label := "echo";
     kind := LSP.SymbolKind_Interface;
     detail := None;
     documentation := None;
     data := {| name := "echo"; type := Builtin |} |}.

Definition edited : LSP.TextDocument :=
  {| LSP.doc_uri := "file:///a.sh";
     LSP.doc_version := 2;
     LSP.doc_text := "deploy() build" |}.

Definition editor : LSP.Connection := {| LSP.conn_id := 2 |}.

(** A script with one word of each kind: a reserved word, an executable,
    a builtin that is also an executable, and an unknown word. *)
Definition words : LSP.TextDocument :=
  {| LSP.doc_uri := "file:///a.sh";
     LSP.doc_version := 1;
     LSP.doc_text := "if ls echo zz" |}.

Definition wordsServer : BashServer Demo.Store (list string) :=
  {| connection := Demo.client;
     executables := ["ls"; "echo"; "grep"];
     analyzer := [words] |}.

(** A word being typed: [ec], then [echo]. *)
Definition halfTyped : LSP.TextDocument :=
  {| LSP.doc_uri := "file:///a.sh";
     LSP.doc_version := 1;
     LSP.doc_text := "build() ec" |}.

Definition typed : LSP.TextDocument :=
  {| LSP.doc_uri := "file:///a.sh";
     LSP.doc_version := 2;
     LSP.doc_text := "build() echo" |}.

Definition typingServer : BashServer Demo.Store (list string) :=
  {| connection := Demo.client;
     executables := ["ls"; "echo"; "grep"];
     analyzer := [halfTyped] |}.

End Faults.

Unset Implicit Arguments.

(** * Properties *)

(** ** Strings *)

Lemma startsWith_nil (s : string) : JS.startsWith s EmptyString = true.
Proof. reflexivity. Qed.

(** [startsWith] decides "has this prefix". *)
Lemma startsWith_spec (s p : string) :
  JS.startsWith s p = true <-> exists r, s = (p ++ r)%string.
Proof.
  revert s; induction p as [|c p IH]; intros s; simpl.
  - split; [intros _; now exists s | reflexivity].
  - destruct s as [|d s].
    + split; [discriminate | intros [r Hr]; discriminate].
    + rewrite andb_true_iff, Ascii.eqb_eq, IH. split.
      * intros [-> [r ->]]. now exists r.
      * intros [r Hr]. injection Hr as -> ->. split; [reflexivity | now exists r].
Qed.

Lemma startsWith_truthy (w p : string) :
  p <> EmptyString -> JS.startsWith w p = true -> JS.truthy (Some w) = true.
Proof.
  intros Hp H. destruct w as [|d w]; [|reflexivity].
  destruct p; [now elim Hp | discriminate].
Qed.

Lemma falsy_word (w : string) : JS.truthy (Some w) = false -> w = EmptyString.
Proof. destruct w; [reflexivity | discriminate]. Qed.

(** ** Traced computations *)

Lemma result_bind {A B : Type} (m : Eff A) (k : A -> Eff B) :
  result (bind m k) = result (k (result m)).
Proof. unfold result, bind. destruct m as [t a]; simpl. now destruct (k a). Qed.

Lemma trace_bind {A B : Type} (m : Eff A) (k : A -> Eff B) :
  trace (bind m k) = (trace m ++ trace (k (result m)))%list.
Proof. unfold trace, result, bind. destruct m as [t a]; simpl. now destruct (k a). Qed.

Lemma bind_eta {A B : Type} (m : Eff A) (k : A -> Eff B) :
  bind m k = ((trace m ++ trace (k (result m)))%list, result (k (result m))).
Proof. unfold trace, result, bind. destruct m as [t a]; simpl. now destruct (k a). Qed.

Lemma eff_eta {A : Type} (m : Eff A) : m = (trace m, result m).
Proof. now destruct m. Qed.

Lemma await_resolved {A B : Type} (t : Trace) (a : A)
    (k : A -> Eff (Outcome B)) :
  await (t, Resolved a) k = ((t ++ trace (k a))%list, result (k a)).
Proof. unfold await, trace, result. now destruct (k a). Qed.

Lemma await_rejected {A B : Type} (t : Trace) (e : Error)
    (k : A -> Eff (Outcome B)) :
  await (t, Rejected e) k = (t, Rejected e).
Proof. reflexivity. Qed.

Lemma await_pending {A B : Type} (t : Trace) (k : A -> Eff (Outcome B)) :
  await (t, Pending) k = (t, Pending).
Proof. reflexivity. Qed.


Section Handlers.

Context {P A E : Type}.
Context {parserOps : Parser.Ops P}
        {analyzerOps : Analyzer.Ops P A}
        {executablesOps : Executables.Ops E}
        {builtinsOps : Builtins.Ops}
        {reservedWordsOps : ReservedWords.Ops}
        {configOps : config.Ops}
        {runtimeOps : Runtime.Ops}.

Implicit Types (this : BashServer A E)
               (params : LSP.TextDocumentPositionParams).

(** *** Completion *)

(** [onCompletion] as a function of the cursor word. *)
Lemma onCompletion_result this params :
  result (onCompletion this params) =
  match getWordAtPoint this params with
  | Some w =>
      if JS.truthy (Some w) then
        if JS.startsWith w "#" then []
        else filter (fun item => JS.startsWith (label item) w)
                    (allCompletions this params)
      else allCompletions this params
  | None => allCompletions this params
  end.
Proof.
  unfold onCompletion. rewrite result_bind.
  destruct (getWordAtPoint this params) as [w|]; [|reflexivity].
  destruct (JS.truthy (Some w)); [|reflexivity].
  now destruct (JS.startsWith w "#").
Qed.

(** C1. When the word under the cursor, as [wordAtPoint] returns it, is
    not null and begins with [#], [onCompletion] returns the empty list
    of candidates. *)
Theorem onCompletion_in_comment this params (w : string) :
  Analyzer.wordAtPoint (analyzer this)
    (LSP.uri (LSP.textDocument params))
    (LSP.line (LSP.position params))
    (LSP.character (LSP.position params)) = Some w ->
  JS.startsWith w "#" = true ->
  result (onCompletion this params) = [].
Proof.
  intros Hword Hhash. rewrite onCompletion_result.
  unfold getWordAtPoint. rewrite Hword.
  rewrite (@startsWith_truthy w "#") by (discriminate || assumption).
  now rewrite Hhash.
Qed.

(** C4. The candidates of [onCompletion] are the reserved words, the
    symbol completions of the document, the executables on PATH and the
    builtins, concatenated in this order. A null cursor word yields the
    whole list; a word that does not begin with [#] yields, in the same
    order, the candidates whose label starts with the word. *)
Theorem onCompletion_candidates this params :
  let all :=
    (map (fun reservedWord =>
            {| label := reservedWord; kind := LSP.SymbolKind_Interface;
               detail := None; documentation := None;
               data := {| name := reservedWord; type := ReservedWord |} |})
         ReservedWords.LIST
     ++ Analyzer.findSymbolCompletions (analyzer this)
          (LSP.uri (LSP.textDocument params))
     ++ map (fun s =>
               {| label := s; kind := LSP.SymbolKind_Function;
                  detail := None; documentation := None;
                  data := {| name := s; type := Executable |} |})
            (Executables.list (executables this))
     ++ map (fun builtin =>
               {| label := builtin; kind := LSP.SymbolKind_Interface;
                  detail := None; documentation := None;
                  data := {| name := builtin; type := Builtin |} |})
            Builtins.LIST)%list in
  result (onCompletion this params) =
  match Analyzer.wordAtPoint (analyzer this)
          (LSP.uri (LSP.textDocument params))
          (LSP.line (LSP.position params))
          (LSP.character (LSP.position params)) with
  | None => all
  | Some w =>
      if JS.startsWith w "#" then []
      else filter (fun item => JS.startsWith (label item) w) all
  end.
Proof.
  intros all. rewrite onCompletion_result.
  change (allCompletions this params) with all. unfold getWordAtPoint.
  destruct (Analyzer.wordAtPoint _ _ _ _) as [w|]; [|reflexivity].
  destruct (JS.truthy (Some w)) eqn:Htruthy; [reflexivity|].
  apply falsy_word in Htruthy. subst w. cbn [JS.startsWith].
  symmetry. apply forallb_filter_id, forallb_forall.
  intros item _. reflexivity.
Qed.

(** *** Definition and highlight *)

(** C6. [onDefinition] returns [findDefinition] of the word at the
    cursor, whatever [wordAtPoint] yields there; a null word is handed to
    [findDefinition] as it is. *)
Theorem onDefinition_findDefinition this params :
  let word := Analyzer.wordAtPoint (analyzer this)
                (LSP.uri (LSP.textDocument params))
                (LSP.line (LSP.position params))
                (LSP.character (LSP.position params)) in
  result (onDefinition this params)
    = Analyzer.findDefinition (analyzer this) word
  /\ (word = None ->
      result (onDefinition this params)
        = Analyzer.findDefinition (analyzer this) None).
Proof.
  intros word. assert (Hres : result (onDefinition this params)
                              = Analyzer.findDefinition (analyzer this) word).
  { unfold onDefinition. now rewrite result_bind. }
  split; [exact Hres | intros Hnull; now rewrite Hres, Hnull].
Qed.

(** C7. [onDocumentHighlight] returns one highlight for each occurrence
    [findOccurrences] reports for the word at the cursor, in the same
    order; the highlight holds the range of the occurrence and nothing
    else of it. *)
Theorem onDocumentHighlight_ranges this params :
  let occurrences :=
    Analyzer.findOccurrences (analyzer this)
      (LSP.uri (LSP.textDocument params))
      (Analyzer.wordAtPoint (analyzer this)
         (LSP.uri (LSP.textDocument params))
         (LSP.line (LSP.position params))
         (LSP.character (LSP.position params))) in
  let highlights := result (onDocumentHighlight this params) in
  List.length highlights = List.length occurrences
  /\ forall i : nat,
       nth_error highlights i
       = option_map (fun n => {| LSP.hl_range := LSP.loc_range n;
                                 LSP.hl_kind := None |})
                    (nth_error occurrences i).
Proof.
  intros occurrences highlights.
  assert (Hmap : highlights
                 = map (fun n => {| LSP.hl_range := LSP.loc_range n;
                                    LSP.hl_kind := None |}) occurrences).
  { unfold highlights, onDocumentHighlight. now rewrite result_bind. }
  rewrite Hmap. split.
  - apply List.length_map.
  - intros i. apply nth_error_map.
Qed.

(** *** Content changes *)

(** C3. On a content change of the document with URI [u] the listener
    calls [analyzer.analyze(u, document)] once; the diagnostics of that
    call are sent to the client exactly when the highlight-parsing-error
    setting is on, and are computed (the Analyzer is updated) either
    way. *)
Theorem onDidChangeContent_analyze_once this (conn : LSP.Connection)
    (change : LSP.TextDocumentChangeEvent) :
  let u := LSP.doc_uri (LSP.document change) in
  let analysis := Analyzer.analyze (analyzer this) u (LSP.document change) in
  let run := onDidChangeContent this conn change in
  trace run
    = (AnalyzerAnalyze u (LSP.document change)
       :: if config.getHighlightParsingError
          then [SendDiagnostics conn u (fst analysis)]
          else [])
  /\ List.length (filter isAnalyze (trace run)) = 1
  /\ existsb isSendDiagnostics (trace run) = config.getHighlightParsingError
  /\ analyzer (result run) = snd analysis.
Proof.
  intros u analysis run.
  assert (Hrun : run
                 = (AnalyzerAnalyze u (LSP.document change)
                    :: (if config.getHighlightParsingError
                        then [SendDiagnostics conn u (fst analysis)]
                        else []),
                    {| connection := connection this;
                       executables := executables this;
                       analyzer := snd analysis |})).
  { unfold run, onDidChangeContent. fold u. fold analysis.
    destruct analysis as [diagnostics analyzer'].
    now destruct config.getHighlightParsingError. }
  rewrite Hrun. cbn [trace result fst snd analyzer].
  destruct config.getHighlightParsingError; repeat split; reflexivity.
Qed.

(** *** Resolving a completion item *)

(** C8. [onCompletionResolve] never rejects. For an item of type
    [Executable], [Builtin] or [ReservedWord] whose documentation lookup
    succeeds the result is the item with its [documentation] set to the
    markdown man page and every other field as it was; for an item of any
    other type, and whenever the lookup fails, the result is the item
    itself. *)
Theorem onCompletionResolve_never_rejects this (item : BashCompletionItem) :
  let r := result (onCompletionResolve this item) in
  isRejected r = false
  /\ r = match documentationOf this item with
         | Some (Resolved doc) =>
             Resolved
               {| label := label item;
                  kind := kind item;
                  detail := detail item;
                  documentation :=
                    Some {| LSP.mc_kind := LSP.markdown;
                            LSP.mc_value :=
                              "``` man" ++ JS.nl ++ doc ++ JS.nl ++ "```" |};
                  data := data item |}
         | Some (Rejected _) => Resolved item
         | Some Pending => Pending
         | None => Resolved item
         end.
Proof.
  intros r.
  assert (Hr : r = match documentationOf this item with
                   | Some (Resolved doc) =>
                       Resolved (getMarkdownCompletionItem item doc)
                   | Some (Rejected _) => Resolved item
                   | Some Pending => Pending
                   | None => Resolved item
                   end).
  { unfold r, onCompletionResolve, documentationOf. rewrite result_bind.
    destruct (type (data item)); cbn [CompletionItemDataType_eqb].
    - destruct (Builtins.documentation _); reflexivity.
    - destruct (Executables.documentation _ _); reflexivity.
    - destruct (ReservedWords.documentation _); reflexivity.
    - reflexivity. }
  split.
  - rewrite Hr. destruct (documentationOf this item) as [[doc|e|]|]; reflexivity.
  - rewrite Hr. destruct (documentationOf this item) as [[doc|e|]|]; reflexivity.
Qed.

(** *** Hover *)

Lemma explainshellHover_silent this params :
  noExplainshellHover this params ->
  result (explainshellHover this params) = Resolved None.
Proof.
  unfold explainshellHover.
  intros [Hfalsy | (endpoint & response & Hep & Hresp & Herr)].
  - destruct config.getExplainshellEndpoint as [endpoint|]; [|reflexivity].
    now rewrite Hfalsy.
  - rewrite Hep, Hresp.
    destruct (JS.truthy (Some endpoint)); [|reflexivity].
    rewrite result_bind. cbn. rewrite Herr. reflexivity.
Qed.

Lemma documentationHover_result this (word : option string) :
  result (documentationHover this word) =
  if Builtins.isBuiltin word then
    then_ (Builtins.documentation word) markdownHover
  else if ReservedWords.isReservedWord word then
    then_ (ReservedWords.documentation word) markdownHover
  else if Executables.isExecutableOnPATH (executables this) word then
    then_ (Executables.documentation (executables this) word) markdownHover
  else Resolved None.
Proof.
  unfold documentationHover.
  destruct (Builtins.isBuiltin word); [reflexivity|].
  destruct (ReservedWords.isReservedWord word); [reflexivity|].
  now destruct (Executables.isExecutableOnPATH (executables this) word).
Qed.

Lemma onHover_after_explainshell this params :
  result (explainshellHover this params) = Resolved None ->
  result (onHover this params)
  = result (documentationHover this (getWordAtPoint this params)).
Proof.
  intros Hnone. unfold onHover. rewrite result_bind.
  rewrite (eff_eta (explainshellHover this params)), Hnone.
  now rewrite await_resolved.
Qed.

Lemma explainshellHover_answer this params
    (endpoint : string) (response : ExplainshellResponse) :
  config.getExplainshellEndpoint = Some endpoint ->
  JS.truthy (Some endpoint) = true ->
  Analyzer.getExplainshellDocumentation (analyzer this) params endpoint
    = Resolved response ->
  status response <> "error" ->
  result (explainshellHover this params)
  = Resolved (Some
      {| LSP.contents :=
           {| LSP.mc_kind := LSP.markdown;
              LSP.mc_value := Runtime.turndown (helpHTML response) |} |}).
Proof.
  intros Hep Htruthy Hresp Hstatus.
  unfold explainshellHover. rewrite Hep, Htruthy, Hresp. cbn.
  destruct (String.eqb (status response) "error") eqn:Heq; [|reflexivity].
  apply String.eqb_eq in Heq. now elim Hstatus.
Qed.

(** C9, as the code has it, in two parts.
    - When the explainshell block yields no hover (the endpoint is not
      set, or the service answered with status [error]), [onHover] looks
      the cursor word up with a fixed precedence: the builtin
      documentation if the word is a builtin, otherwise the reserved-word
      documentation if it is a reserved word, otherwise the documentation
      of the executable if it is on PATH; and it returns null if the word
      is none of these, a null word included.
    - When the endpoint is set and the service answers with a status other
      than [error], the hover made from that answer is returned, whatever
      the word is. *)
Theorem onHover_precedence this params :
  let word := Analyzer.wordAtPoint (analyzer this)
                (LSP.uri (LSP.textDocument params))
                (LSP.line (LSP.position params))
                (LSP.character (LSP.position params)) in
  (noExplainshellHover this params ->
   result (onHover this params) =
   if Builtins.isBuiltin word then
     then_ (Builtins.documentation word)
           (fun doc => Some {| LSP.contents := manPage doc |})
   else if ReservedWords.isReservedWord word then
     then_ (ReservedWords.documentation word)
           (fun doc => Some {| LSP.contents := manPage doc |})
   else if Executables.isExecutableOnPATH (executables this) word then
     then_ (Executables.documentation (executables this) word)
           (fun doc => Some {| LSP.contents := manPage doc |})
   else Resolved None)
  /\ (forall (endpoint : string) (response : ExplainshellResponse),
        config.getExplainshellEndpoint = Some endpoint ->
        JS.truthy (Some endpoint) = true ->
        Analyzer.getExplainshellDocumentation (analyzer this) params endpoint
          = Resolved response ->
        status response <> "error" ->
        result (onHover this params)
        = Resolved (Some
            {| LSP.contents :=
                 {| LSP.mc_kind := LSP.markdown;
                    LSP.mc_value := Runtime.turndown (helpHTML response) |} |})).
Proof.
  intros word. split.
  - intros Hsilent.
    rewrite onHover_after_explainshell
      by now apply explainshellHover_silent.
    apply documentationHover_result.
  - intros endpoint response Hep Htruthy Hresp Hstatus.
    pose proof (explainshellHover_answer this params endpoint response
                  Hep Htruthy Hresp Hstatus) as Hanswer.
    unfold onHover. rewrite result_bind.
    rewrite (eff_eta (explainshellHover this params)), Hanswer.
    now rewrite await_resolved.
Qed.

(** C10. With the explainshell endpoint set and an answer from the
    service, a status of [error] is logged and [onHover] carries on with
    the builtin, reserved-word and executable lookups, its result being
    theirs; only for another status is the hover made from the answer
    returned, and it is returned before any of these lookups. *)
Theorem onHover_explainshell_error this params
    (endpoint : string) (response : ExplainshellResponse) :
  config.getExplainshellEndpoint = Some endpoint ->
  JS.truthy (Some endpoint) = true ->
  Analyzer.getExplainshellDocumentation (analyzer this) params endpoint
    = Resolved response ->
  let word := getWordAtPoint this params in
  let asked :=
    (trace (logRequest this "onHover" params word)
     ++ [ConsoleLog (connection this) ("Query " ++ endpoint)%string;
         ExplainshellQuery endpoint params])%list in
  onHover this params =
  if String.eqb (status response) "error" then
    (asked
     ++ [ConsoleLog (connection this)
           ("getExplainshellDocumentation returned: "
              ++ Runtime.JSON_stringify response)%string]
     ++ trace (documentationHover this word),
     result (documentationHover this word))%list
  else
    (asked,
     Resolved (Some
       {| LSP.contents :=
            {| LSP.mc_kind := LSP.markdown;
               LSP.mc_value := Runtime.turndown (helpHTML response) |} |})).
Proof.
  intros Hep Htruthy Hresp word asked.
  unfold onHover. fold word.
  assert (Hblock : explainshellHover this params =
            ([ConsoleLog (connection this) ("Query " ++ endpoint)%string;
              ExplainshellQuery endpoint params]
             ++ (if String.eqb (status response) "error"
                 then [ConsoleLog (connection this)
                         ("getExplainshellDocumentation returned: "
                            ++ Runtime.JSON_stringify response)%string]
                 else []),
             Resolved
               (if String.eqb (status response) "error" then None
                else Some
                  {| LSP.contents :=
                       {| LSP.mc_kind := LSP.markdown;
                          LSP.mc_value :=
                            Runtime.turndown (helpHTML response) |} |}))%list).
  { unfold explainshellHover. rewrite Hep, Htruthy, Hresp.
    cbn. now destruct (String.eqb (status response) "error"). }
  rewrite bind_eta, Hblock, await_resolved. unfold asked.
  destruct (String.eqb (status response) "error");
    cbn [trace result fst snd]; rewrite <- !app_assoc.
  - reflexivity.
  - now rewrite !app_nil_r.
Qed.

(** *** Start-up *)

(** The three outcomes of [initialize], by the outcome of the grammar. *)
Lemma initialize_unfold (conn : LSP.Connection)
    (params : LSP.InitializeParams) :
  initialize conn params =
  match Parser.initializeParser with
  | Resolved parser =>
      ([InitializeParser;
        ExecutablesFromPath Runtime.env_PATH;
        AnalyzerFromRoot conn (LSP.rootPath params)],
       then_ (promise_all2 Runtime.scan_schedule
                (Executables.fromPath Runtime.env_PATH)
                (Analyzer.fromRoot conn (LSP.rootPath params) parser))
             (fun xs => {| connection := conn;
                           executables := fst xs;
                           analyzer := snd xs |}))
  | Rejected e => ([InitializeParser], Rejected e)
  | Pending => ([InitializeParser], Pending)
  end.
Proof.
  unfold initialize.
  destruct Parser.initializeParser as [parser|e|]; try reflexivity.
  cbn. now destruct (promise_all2 _ _ _).
Qed.

(** Neither scan is started unless the grammar initialization is
    fulfilled. *)
Lemma initialize_grammar_first (conn : LSP.Connection)
    (params : LSP.InitializeParams) :
  (forall parser : P, Parser.initializeParser <> Resolved parser) ->
  trace (initialize conn params) = [InitializeParser].
Proof.
  intros Hnot. rewrite initialize_unfold.
  destruct Parser.initializeParser as [parser|e|]; try reflexivity.
  now elim (Hnot parser).
Qed.

Lemma promise_all2_resolved {X Y : Type} (sch : Schedule)
    (p : Outcome X) (q : Outcome Y) (xy : X * Y) :
  promise_all2 sch p q = Resolved xy ->
  p = Resolved (fst xy) /\ q = Resolved (snd xy).
Proof.
  destruct p as [x|e1|], q as [y|e2|], sch; simpl; try discriminate.
  all: intros [= <-]; now split.
Qed.

Lemma promise_all2_rejected {X Y : Type} (sch : Schedule)
    (p : Outcome X) (q : Outcome Y) :
  isRejected p = true \/ isRejected q = true ->
  exists e, promise_all2 sch p q = Rejected e
            /\ (p = Rejected e \/ q = Rejected e).
Proof.
  destruct p as [x|e1|], q as [y|e2|], sch; simpl;
    intros [H|H]; try discriminate H; eauto.
Qed.

(** C2. [initialize] fulfils its promise with a [BashServer] only when
    the grammar initialization, the scan of PATH and the scan of the
    workspace have all three been fulfilled: the grammar is awaited
    first, both scans are started with its parser and awaited together,
    and the server is made of the connection and of their two values.
    Handlers are registered on that server ([register] is a method of it),
    so none exists before. *)
Theorem initialize_completes_before_server (conn : LSP.Connection)
    (params : LSP.InitializeParams) (server : BashServer A E) :
  result (initialize conn params) = Resolved server ->
  exists parser : P,
    Parser.initializeParser = Resolved parser
    /\ Executables.fromPath Runtime.env_PATH = Resolved (executables server)
    /\ Analyzer.fromRoot conn (LSP.rootPath params) parser
       = Resolved (analyzer server)
    /\ connection server = conn
    /\ trace (initialize conn params)
       = [InitializeParser;
          ExecutablesFromPath Runtime.env_PATH;
          AnalyzerFromRoot conn (LSP.rootPath params)].
Proof.
  rewrite initialize_unfold.
  destruct Parser.initializeParser as [parser|e|]; cbn [result trace fst snd];
    try discriminate.
  intros Hserver. exists parser.
  destruct (promise_all2 _ _ _) as [xs|e|] eqn:Hall; try discriminate.
  apply promise_all2_resolved in Hall as [Hexecs Hanalyzer].
  injection Hserver as <-. cbn [executables analyzer connection].
  repeat split; assumption || reflexivity.
Qed.

(** C5. If the grammar initialization is rejected, or, once the parser
    is there, the scan of PATH or the scan of the workspace is rejected,
    then [initialize] is rejected, with the reason of one of them, and
    yields no [BashServer]. *)
Theorem initialize_failure_propagates (conn : LSP.Connection)
    (params : LSP.InitializeParams) :
  isRejected Parser.initializeParser = true
  \/ (exists parser : P,
        Parser.initializeParser = Resolved parser
        /\ (isRejected (Executables.fromPath Runtime.env_PATH) = true
            \/ isRejected (Analyzer.fromRoot conn (LSP.rootPath params) parser)
               = true)) ->
  exists e : Error,
    result (initialize conn params) = Rejected e
    /\ (Parser.initializeParser = Rejected e
        \/ Executables.fromPath Runtime.env_PATH = Rejected e
        \/ exists parser : P,
             Analyzer.fromRoot conn (LSP.rootPath params) parser = Rejected e)
    /\ forall server, result (initialize conn params) <> Resolved server.
Proof.
  rewrite initialize_unfold.
  intros [Hgrammar | (parser & Hparser & Hscan)].
  - destruct Parser.initializeParser as [parser|e|]; try discriminate.
    exists e. cbn. repeat split; [now left | discriminate].
  - rewrite Hparser. cbn [result snd].
    destruct (promise_all2_rejected Runtime.scan_schedule _ _ Hscan)
      as (e & Hall & Hwho).
    exists e. rewrite Hall. cbn. repeat split.
    + destruct Hwho; [right; now left | right; right; now exists parser].
    + discriminate.
Qed.

End Handlers.

(** * The handlers on concrete requests

    The workspace of [Demo]: one script, [build() echo #todo ec build],
    whose tokens start at columns 0, 8, 13, 19 and 22. *)

Module Scenario.

Import Demo.Defaults.

Example tokens_of_script :
  Demo.tokens (LSP.doc_text Demo.script)
  = [(0, "build()"); (8, "echo"); (13, "#todo"); (19, "ec"); (22, "build")].
Proof. reflexivity. Qed.

Example completion_of_ec :
  map label (result (onCompletion Demo.server (Demo.at_col 20)))
  = ["echo"; "echo"].
Proof. reflexivity. Qed.

Example completion_on_blank :
  map label (result (onCompletion Demo.server (Demo.at_col 7)))
  = ["if"; "then"; "else"; "fi"; "build"; "ls"; "echo"; "grep";
     "cd"; "echo"; "export"].
Proof. reflexivity. Qed.

Example definition_of_build :
  result (onDefinition Demo.server (Demo.at_col 23))
  = [ {| LSP.loc_uri := "file:///a.sh"; LSP.loc_range := Demo.rangeOf (0, "build()") |} ].
Proof. reflexivity. Qed.

Example hover_on_echo :
  result (onHover Demo.server (Demo.at_col 8))
  = Resolved (Some {| LSP.contents := manPage "help echo" |}).
Proof. reflexivity. Qed.

Example change_is_analyzed_and_reported :
  onDidChangeContent Demo.server Demo.client {| LSP.document := Demo.script |}
  = ([AnalyzerAnalyze "file:///a.sh" Demo.script;
      SendDiagnostics Demo.client "file:///a.sh" []],
     Demo.server).
Proof. reflexivity. Qed.

(** The word under column 14 is [#todo]: no candidates. *)
Lemma onCompletion_in_comment_witness :
  Analyzer.wordAtPoint (analyzer Demo.server) "file:///a.sh" 0 14 = Some "#todo"
  /\ JS.startsWith "#todo" "#" = true
  /\ result (onCompletion Demo.server (Demo.at_col 14)) = [].
Proof.
  split; [reflexivity | split; [reflexivity |]].
  apply (onCompletion_in_comment Demo.server (Demo.at_col 14) "#todo");
    reflexivity.
Defined.

(** Column 7 is a blank: [findDefinition] is asked for null. *)
Lemma onDefinition_null_word_witness :
  Analyzer.wordAtPoint (analyzer Demo.server) "file:///a.sh" 0 7 = None
  /\ result (onDefinition Demo.server (Demo.at_col 7))
     = Analyzer.findDefinition (analyzer Demo.server) None.
Proof.
  split; [reflexivity |].
  apply (proj2 (onDefinition_findDefinition Demo.server (Demo.at_col 7))).
  reflexivity.
Defined.

(** A start-up in which everything is fulfilled. *)
Lemma initialize_completes_before_server_witness :
  result (initialize Demo.client {| LSP.rootPath := Some "/work" |})
  = Resolved Demo.started
  /\ exists parser : unit,
       Parser.initializeParser = Resolved parser
       /\ Executables.fromPath Runtime.env_PATH = Resolved (executables Demo.started)
       /\ Analyzer.fromRoot Demo.client (Some "/work") parser
          = Resolved (analyzer Demo.started)
       /\ connection Demo.started = Demo.client
       /\ trace (initialize Demo.client {| LSP.rootPath := Some "/work" |})
          = [InitializeParser;
             ExecutablesFromPath Runtime.env_PATH;
             AnalyzerFromRoot Demo.client (Some "/work")].
Proof.
  split; [reflexivity |].
  apply (initialize_completes_before_server
           Demo.client {| LSP.rootPath := Some "/work" |} Demo.started).
  reflexivity.
Defined.

(** A start-up in which the workspace scan is rejected while the scan of
    PATH never settles. *)
Lemma initialize_failure_propagates_witness :
  exists e : Error,
    result (initialize (analyzerOps := Demo.analyzerOf false Demo.explainError)
              (executablesOps := Demo.execsPending)
              Demo.client {| LSP.rootPath := None |})
    = Rejected e.
Proof.
  destruct (initialize_failure_propagates
              (analyzerOps := Demo.analyzerOf false Demo.explainError)
              (executablesOps := Demo.execsPending)
              Demo.client {| LSP.rootPath := None |})
    as (e & Hrejected & _).
  - right. exists tt. split; [reflexivity | right; reflexivity].
  - exists e. exact Hrejected.
Defined.

(** The script [if ls echo zz] under the cursor, column by column: [if] is
    a reserved word, [ls] is only on PATH, [echo] is a builtin and on PATH,
    [zz] is nothing. Without explainshell, and with explainshell answering
    [error], the lookups follow the precedence; with explainshell answering
    [success] its text is the hover, also on the builtin. *)
Lemma onHover_precedence_witness :
  (noExplainshellHover Faults.wordsServer (Demo.at_col 6)
   /\ result (onHover Faults.wordsServer (Demo.at_col 6))
      = Resolved (Some {| LSP.contents := manPage "help echo" |}))
  /\ result (onHover Faults.wordsServer (Demo.at_col 0))
     = Resolved (Some {| LSP.contents := manPage "reserved if" |})
  /\ result (onHover Faults.wordsServer (Demo.at_col 3))
     = Resolved (Some {| LSP.contents := manPage "man page" |})
  /\ result (onHover Faults.wordsServer (Demo.at_col 11)) = Resolved None
  /\ result (onHover Faults.wordsServer (Demo.at_col 2)) = Resolved None
  /\ result (onHover (configOps := Demo.cfg (Some Demo.endpoint) true)
               Faults.wordsServer (Demo.at_col 6))
     = Resolved (Some {| LSP.contents := manPage "help echo" |})
  /\ result (onHover (analyzerOps := Demo.analyzerOf true Demo.explainOk)
               (configOps := Demo.cfg (Some Demo.endpoint) true)
               Faults.wordsServer (Demo.at_col 6))
     = Resolved (Some {| LSP.contents :=
                           {| LSP.mc_kind := LSP.markdown;
                              LSP.mc_value := "md:<b>echo</b>" |} |}).
Proof.
  assert (Hunset : forall col, noExplainshellHover Faults.wordsServer (Demo.at_col col))
    by (intros col; left; reflexivity).
  split; [split | split; [| split; [| split; [| split; [| split]]]]].
  - exact (Hunset 6).
  - exact (proj1 (onHover_precedence Faults.wordsServer (Demo.at_col 6)) (Hunset 6)).
  - exact (proj1 (onHover_precedence Faults.wordsServer (Demo.at_col 0)) (Hunset 0)).
  - exact (proj1 (onHover_precedence Faults.wordsServer (Demo.at_col 3)) (Hunset 3)).
  - exact (proj1 (onHover_precedence Faults.wordsServer (Demo.at_col 11)) (Hunset 11)).
  - exact (proj1 (onHover_precedence Faults.wordsServer (Demo.at_col 2)) (Hunset 2)).
  - assert (Herror : noExplainshellHover
                       (configOps := Demo.cfg (Some Demo.endpoint) true)
                       Faults.wordsServer (Demo.at_col 6)).
    { right.
      exists Demo.endpoint, {| status := "error"; helpHTML := EmptyString |}.
      split; [reflexivity | split; reflexivity]. }
    exact (proj1 (onHover_precedence
                    (configOps := Demo.cfg (Some Demo.endpoint) true)
                    Faults.wordsServer (Demo.at_col 6)) Herror).
  - assert (Hstatus : "success" <> "error") by discriminate.
    exact (proj2 (onHover_precedence
                    (analyzerOps := Demo.analyzerOf true Demo.explainOk)
                    (configOps := Demo.cfg (Some Demo.endpoint) true)
                    Faults.wordsServer (Demo.at_col 6))
             Demo.endpoint {| status := "success"; helpHTML := "<b>echo</b>" |}
             eq_refl eq_refl eq_refl Hstatus).
Defined.

(** Explainshell is configured and answers [error]: the builtin
    documentation of [echo] is returned after the error is logged. *)
Lemma onHover_explainshell_error_witness :
  onHover (configOps := Demo.cfg (Some Demo.endpoint) true)
          Demo.server (Demo.at_col 8)
  = ([ConsoleLog Demo.client ("onHover 0:8 " ++ dquote ++ "echo" ++ dquote);
      ConsoleLog Demo.client "Query http://localhost:5000";
      ExplainshellQuery Demo.endpoint (Demo.at_col 8);
      ConsoleLog Demo.client "getExplainshellDocumentation returned: {status: error}";
      DocumentationLookup FromBuiltins (Some "echo")],
     Resolved (Some {| LSP.contents := manPage "help echo" |})).
Proof.
  rewrite (onHover_explainshell_error
             (configOps := Demo.cfg (Some Demo.endpoint) true)
             Demo.server (Demo.at_col 8) Demo.endpoint
             {| status := "error"; helpHTML := EmptyString |});
    reflexivity.
Defined.

(** C9 as it is worded fails: with explainshell configured and answering,
    the hover on the builtin [echo] is the explainshell text, not the
    builtin documentation. *)
Lemma onHover_builtin_behind_explainshell :
  let hover :=
    onHover (analyzerOps := Demo.analyzerOf true Demo.explainOk)
            (configOps := Demo.cfg (Some Demo.endpoint) true)
            Demo.server (Demo.at_col 8) in
  let word := Some "echo" in
  Analyzer.wordAtPoint (analyzer Demo.server) "file:///a.sh" 0 8 = word
  /\ Builtins.isBuiltin word = true
  /\ result hover
     = Resolved (Some {| LSP.contents :=
                           {| LSP.mc_kind := LSP.markdown;
                              LSP.mc_value := "md:<b>echo</b>" |} |})
  /\ result hover
     <> then_ (Builtins.documentation word)
              (fun doc => Some {| LSP.contents := manPage doc |}).
Proof.
  cbv zeta. repeat split; try reflexivity.
  vm_compute. discriminate.
Defined.

End Scenario.

(** * Further properties of the request layer *)

(** ** Lists and traces *)

Lemma filter_filter_implied {X : Type} (p q : X -> bool) (l : list X) :
  (forall x, q x = true -> p x = true) ->
  filter q (filter p l) = filter q l.
Proof.
  intros Himp. induction l as [|x l IH]; [reflexivity|]. simpl.
  destruct (p x) eqn:Hp; simpl.
  - now rewrite IH.
  - destruct (q x) eqn:Hq; [|exact IH].
    apply Himp in Hq. congruence.
Qed.

Lemma filter_one {X : Type} (q : X -> bool) (x : X) (l : list X) :
  In x l -> q x = true -> 1 <= List.length (filter q l).
Proof.
  intros Hin Hq. induction l as [|y l IH]; [contradiction|].
  simpl. destruct Hin as [-> | Hin].
  - rewrite Hq. simpl. lia.
  - destruct (q y); simpl; [specialize (IH Hin); lia | auto].
Qed.

Lemma startsWith_app (s w r : string) :
  JS.startsWith s (w ++ r) = true -> JS.startsWith s w = true.
Proof.
  revert s. induction w as [|c w IH]; intros s; [reflexivity|].
  simpl. destruct s as [|d s]; [discriminate|].
  rewrite !andb_true_iff. intros [Hc Hrest]. split; [assumption | now apply IH].
Qed.

Lemma startsWith_refl (s : string) : JS.startsWith s s = true.
Proof.
  induction s as [|c s IH]; [reflexivity|].
  simpl. now rewrite Ascii.eqb_refl, IH.
Qed.

Lemma await_eta {X Y : Type} (m : Eff (Outcome X))
    (k : X -> Eff (Outcome Y)) :
  await m k =
  match result m with
  | Resolved a => ((trace m ++ trace (k a))%list, result (k a))
  | Rejected e => (trace m, Rejected e)
  | Pending => (trace m, Pending)
  end.
Proof.
  destruct m as [t [a|e|]]; cbn [result trace fst snd]; try reflexivity.
  apply await_resolved.
Qed.

Section Coverage.

Context {P A E : Type}.
Context {parserOps : Parser.Ops P}
        {analyzerOps : Analyzer.Ops P A}
        {executablesOps : Executables.Ops E}
        {builtinsOps : Builtins.Ops}
        {reservedWordsOps : ReservedWords.Ops}
        {configOps : config.Ops}
        {runtimeOps : Runtime.Ops}.

Implicit Types (this : BashServer A E)
               (params : LSP.TextDocumentPositionParams).

(** *** Completion *)

(** The candidates before filtering depend on the server only through the
    symbol candidates of the document and the executables. *)
Lemma allCompletions_same_sources (this1 this2 : BashServer A E)
    params1 params2 :
  Analyzer.findSymbolCompletions (analyzer this1)
    (LSP.uri (LSP.textDocument params1))
  = Analyzer.findSymbolCompletions (analyzer this2)
      (LSP.uri (LSP.textDocument params2)) ->
  executables this1 = executables this2 ->
  allCompletions this1 params1 = allCompletions this2 params2.
Proof.
  unfold allCompletions, programCompletions. now intros -> ->.
Qed.

(** The candidates for a word that does not begin with [#], the empty word
    included. *)
Lemma onCompletion_filtered this params (w : string) :
  getWordAtPoint this params = Some w ->
  JS.startsWith w "#" = false ->
  result (onCompletion this params)
  = filter (fun item => JS.startsWith (label item) w)
           (allCompletions this params).
Proof.
  intros Hword Hhash. rewrite onCompletion_result, Hword, Hhash.
  destruct (JS.truthy (Some w)) eqn:Htruthy; [reflexivity|].
  apply falsy_word in Htruthy. subst w.
  symmetry. apply forallb_filter_id, forallb_forall. reflexivity.
Qed.

(** X1. Narrowing between two requests, which may be made on two states
    of the server (before and after edits, say): if both requests see the
    same symbol candidates for their documents and the same executables,
    and the cursor word of the second is the word [w] of the first followed
    by [r] (and does not begin with [#]), then the candidates of the second
    are those among the candidates of the first whose label starts with
    [w ++ r], in the same order. *)
Theorem onCompletion_narrows (this1 this2 : BashServer A E)
    params1 params2 (w r : string) :
  Analyzer.findSymbolCompletions (analyzer this1)
    (LSP.uri (LSP.textDocument params1))
  = Analyzer.findSymbolCompletions (analyzer this2)
      (LSP.uri (LSP.textDocument params2)) ->
  executables this1 = executables this2 ->
  getWordAtPoint this1 params1 = Some w ->
  getWordAtPoint this2 params2 = Some (w ++ r)%string ->
  JS.startsWith (w ++ r) "#" = false ->
  result (onCompletion this2 params2)
  = filter (fun item => JS.startsWith (label item) (w ++ r))
           (result (onCompletion this1 params1)).
Proof.
  intros Hsymbols Hexecs Hw Hwr Hhash.
  assert (Hhash_w : JS.startsWith w "#" = false).
  { destruct w as [|c w]; [reflexivity|].
    simpl in Hhash |- *. exact Hhash. }
  rewrite (onCompletion_filtered this2 params2 (w ++ r) Hwr Hhash).
  rewrite (onCompletion_filtered this1 params1 w Hw Hhash_w).
  rewrite <- (allCompletions_same_sources this1 this2 params1 params2
                Hsymbols Hexecs).
  symmetry. apply filter_filter_implied.
  intros item. apply startsWith_app.
Qed.

(** X2. Duplicates: a name that is both a builtin and an executable on
    PATH is offered at least twice, for a null word and for every word
    (not beginning with [#]) the name starts with. *)
Theorem onCompletion_duplicates this params (s : string) :
  In s Builtins.LIST ->
  In s (Executables.list (executables this)) ->
  match getWordAtPoint this params with
  | None => True
  | Some w => JS.startsWith w "#" = false /\ JS.startsWith s w = true
  end ->
  2 <= List.length (filter (labelled s) (result (onCompletion this params))).
Proof.
  intros Hbuiltin Hexec Hword.
  assert (Hall : filter (labelled s) (result (onCompletion this params))
                 = filter (labelled s) (allCompletions this params)).
  { destruct (getWordAtPoint this params) as [w|] eqn:Hw.
    - destruct Hword as [Hhash Hprefix].
      rewrite (onCompletion_filtered this params w Hw Hhash).
      apply filter_filter_implied. intros item Hitem.
      unfold labelled in Hitem. apply String.eqb_eq in Hitem.
      now rewrite Hitem.
    - now rewrite onCompletion_result, Hw. }
  rewrite Hall. unfold allCompletions.
  rewrite !filter_app, !List.length_app.
  assert (1 <= List.length (filter (labelled s) (programCompletions this))).
  { apply filter_one with
      (x := {| label := s; kind := LSP.SymbolKind_Function; detail := None;
               documentation := None;
               data := {| name := s; type := Executable |} |}).
    - unfold programCompletions.
      apply (in_map (fun s => {| label := s; kind := LSP.SymbolKind_Function;
                                 detail := None; documentation := None;
                                 data := {| name := s; type := Executable |} |})).
      exact Hexec.
    - apply String.eqb_refl. }
  assert (1 <= List.length (filter (labelled s) builtinsCompletions)).
  { apply filter_one with
      (x := {| label := s; kind := LSP.SymbolKind_Interface; detail := None;
               documentation := None;
               data := {| name := s; type := Builtin |} |}).
    - unfold builtinsCompletions.
      apply (in_map (fun s => {| label := s; kind := LSP.SymbolKind_Interface;
                                 detail := None; documentation := None;
                                 data := {| name := s; type := Builtin |} |})).
      exact Hbuiltin.
    - apply String.eqb_refl. }
  lia.
Qed.

(** *** Resolving a completion item *)

(** [onCompletionResolve], trace and result, by the type of the item. *)
Lemma onCompletionResolve_unfold this (item : BashCompletionItem) :
  onCompletionResolve this item =
  let logged :=
    ConsoleLog (connection this)
      ("onCompletionResolve name=" ++ name (data item)
         ++ " type=" ++ Runtime.show_type (type (data item)))%string in
  let settle (lookup : Outcome string) : Outcome BashCompletionItem :=
    match lookup with
    | Resolved doc => Resolved (getMarkdownCompletionItem item doc)
    | Rejected _ => Resolved item
    | Pending => Pending
    end in
  match type (data item) with
  | Executable =>
      ([logged; DocumentationLookup FromExecutables (Some (name (data item)))],
       settle (Executables.documentation (executables this)
                 (Some (name (data item)))))
  | Builtin =>
      ([logged; DocumentationLookup FromBuiltins (Some (name (data item)))],
       settle (Builtins.documentation (Some (name (data item)))))
  | ReservedWord =>
      ([logged; DocumentationLookup FromReservedWords (Some (name (data item)))],
       settle (ReservedWords.documentation (Some (name (data item)))))
  | Symbol => ([logged], Resolved item)
  end.
Proof.
  unfold onCompletionResolve.
  destruct (type (data item)); cbn [CompletionItemDataType_eqb].
  - destruct (Builtins.documentation _); reflexivity.
  - destruct (Executables.documentation _ _); reflexivity.
  - destruct (ReservedWords.documentation _); reflexivity.
  - reflexivity.
Qed.

(** X3. Completion, then resolution. A candidate [onCompletion] makes from
    the reserved words, the executables or the builtins carries its label
    as [data.name] and no documentation; resolving it looks its label up in
    the table it came from, and yields the candidate with the man page of
    that documentation (or the candidate itself if the lookup fails). *)
Theorem onCompletionResolve_of_candidate this (item : BashCompletionItem) :
  In item (reservedWordsCompletions ++ programCompletions this
             ++ builtinsCompletions) ->
  name (data item) = label item
  /\ documentation item = None
  /\ exists lookup : Outcome string,
       (type (data item) = ReservedWord
          /\ lookup = ReservedWords.documentation (Some (label item))
        \/ type (data item) = Executable
          /\ lookup = Executables.documentation (executables this)
                        (Some (label item))
        \/ type (data item) = Builtin
          /\ lookup = Builtins.documentation (Some (label item)))
       /\ result (onCompletionResolve this item)
          = match lookup with
            | Resolved doc =>
                Resolved {| label := label item;
                            kind := kind item;
                            detail := None;
                            documentation := Some (manPage doc);
                            data := data item |}
            | Rejected _ => Resolved item
            | Pending => Pending
            end.
Proof.
  intros Hin. rewrite onCompletionResolve_unfold. cbv zeta.
  unfold reservedWordsCompletions, programCompletions, builtinsCompletions in Hin.
  rewrite !in_app_iff, !in_map_iff in Hin.
  destruct Hin as [(s & <- & _) | [(s & <- & _) | (s & <- & _)]];
    cbn [name data label documentation type kind detail];
    (split; [reflexivity | split; [reflexivity |]]).
  - exists (ReservedWords.documentation (Some s)). split; [now left | reflexivity].
  - exists (Executables.documentation (executables this) (Some s)).
    split; [right; now left | reflexivity].
  - exists (Builtins.documentation (Some s)). split; [right; now right | reflexivity].
Qed.

(** X4. Resolving is idempotent: resolving an item that
    [onCompletionResolve] returned returns it again (the lookups answering
    as they did), so the documentation is replaced, never piled up, and
    the fields the lookup is made by are kept. *)
Theorem onCompletionResolve_idempotent this (item item' : BashCompletionItem) :
  result (onCompletionResolve this item) = Resolved item' ->
  result (onCompletionResolve this item') = Resolved item'.
Proof.
  rewrite !onCompletionResolve_unfold. cbv zeta.
  destruct (type (data item)) eqn:Htype; cbn [result snd].
  - destruct (Builtins.documentation (Some (name (data item)))) as [doc|e|] eqn:Hdoc;
      intros [= <-]; cbn [data getMarkdownCompletionItem];
      rewrite Htype; cbn [result snd]; rewrite Hdoc; reflexivity.
  - destruct (Executables.documentation _ (Some (name (data item)))) as [doc|e|] eqn:Hdoc;
      intros [= <-]; cbn [data getMarkdownCompletionItem];
      rewrite Htype; cbn [result snd]; rewrite Hdoc; reflexivity.
  - destruct (ReservedWords.documentation (Some (name (data item)))) as [doc|e|] eqn:Hdoc;
      intros [= <-]; cbn [data getMarkdownCompletionItem];
      rewrite Htype; cbn [result snd]; rewrite Hdoc; reflexivity.
  - intros [= <-]. rewrite Htype. reflexivity.
Qed.

(** X5. [onCompletionResolve] writes one log line and then makes at most
    one documentation lookup: none for an item of type [Symbol], one
    otherwise, always for the [data.name] of the item, whether the lookup
    succeeds or not; it does nothing else. *)
Theorem onCompletionResolve_lookups this (item : BashCompletionItem) :
  let tr := trace (onCompletionResolve this item) in
  (exists msg : string, hd_error tr = Some (ConsoleLog (connection this) msg))
  /\ List.length tr
     = (if CompletionItemDataType_eqb (type (data item)) Symbol then 1 else 2)
  /\ List.length (filter isLookup tr)
     = (if CompletionItemDataType_eqb (type (data item)) Symbol then 0 else 1)
  /\ forall (src : DocSource) (word : option string),
       In (DocumentationLookup src word) tr ->
       word = Some (name (data item))
       /\ src = match type (data item) with
                | Executable => FromExecutables
                | Builtin => FromBuiltins
                | _ => FromReservedWords
                end.
Proof.
  intros tr. unfold tr. rewrite onCompletionResolve_unfold. cbv zeta.
  destruct (type (data item)); cbn [trace fst];
    (split; [eexists; reflexivity |]);
    (split; [reflexivity |]); (split; [reflexivity |]);
    intros src word Hin; simpl in Hin;
    repeat (destruct Hin as [Hin | Hin]; try discriminate Hin;
            try (injection Hin as <- <-; now split));
    contradiction.
Qed.

(** *** Hover *)

Lemma logRequest_trace this (request : string) params (word : option string) :
  exists msg : string,
    trace (logRequest this request params word)
    = [ConsoleLog (connection this) msg].
Proof. unfold logRequest. eexists. reflexivity. Qed.

(** [onHover] by what the explainshell block yields. *)
Lemma onHover_unfold this params :
  onHover this params =
  let word := getWordAtPoint this params in
  let logged := trace (logRequest this "onHover" params word) in
  let block := explainshellHover this params in
  match result block with
  | Resolved (Some hover) =>
      ((logged ++ trace block)%list, Resolved (Some hover))
  | Resolved None =>
      ((logged ++ trace block ++ trace (documentationHover this word))%list,
       result (documentationHover this word))
  | Rejected e => ((logged ++ trace block)%list, Rejected e)
  | Pending => ((logged ++ trace block)%list, Pending)
  end.
Proof.
  unfold onHover. rewrite bind_eta, await_eta. cbv zeta.
  destruct (result (explainshellHover this params)) as [[hover|]|e|];
    cbn [trace result fst snd ret]; rewrite ?app_nil_r; reflexivity.
Qed.

(** The explainshell block when the endpoint is not set. *)
Lemma explainshellHover_unset this params :
  JS.truthy config.getExplainshellEndpoint = false ->
  explainshellHover this params = ([], Resolved None).
Proof.
  unfold explainshellHover. intros Hfalsy.
  destruct config.getExplainshellEndpoint as [endpoint|]; [|reflexivity].
  now rewrite Hfalsy.
Qed.

(** The explainshell block when the endpoint is set. *)
Lemma explainshellHover_set this params (endpoint : string) :
  config.getExplainshellEndpoint = Some endpoint ->
  JS.truthy (Some endpoint) = true ->
  explainshellHover this params =
  let asked := [ConsoleLog (connection this) ("Query " ++ endpoint)%string;
                ExplainshellQuery endpoint params] in
  match Analyzer.getExplainshellDocumentation (analyzer this) params endpoint with
  | Resolved response =>
      if String.eqb (status response) "error" then
        ((asked ++ [ConsoleLog (connection this)
                      ("getExplainshellDocumentation returned: "
                         ++ Runtime.JSON_stringify response)%string])%list,
         Resolved None)
      else
        (asked,
         Resolved (Some
           {| LSP.contents :=
                {| LSP.mc_kind := LSP.markdown;
                   LSP.mc_value := Runtime.turndown (helpHTML response) |} |}))
  | Rejected e => (asked, Rejected e)
  | Pending => (asked, Pending)
  end.
Proof.
  unfold explainshellHover. intros -> ->. cbv zeta.
  destruct (Analyzer.getExplainshellDocumentation _ _ _) as [response|e|];
    try reflexivity.
  cbn. now destruct (String.eqb (status response) "error").
Qed.

(** The explainshell block makes no documentation lookup, and a hover it
    yields is markdown. *)
Lemma explainshellHover_facts this params :
  filter isLookup (trace (explainshellHover this params)) = []
  /\ forall hover,
       result (explainshellHover this params) = Resolved (Some hover) ->
       LSP.mc_kind (LSP.contents hover) = LSP.markdown.
Proof.
  destruct (JS.truthy config.getExplainshellEndpoint) eqn:Htruthy.
  - destruct config.getExplainshellEndpoint as [endpoint|] eqn:Hep;
      [|discriminate].
    rewrite (explainshellHover_set this params endpoint Hep Htruthy). cbv zeta.
    destruct (Analyzer.getExplainshellDocumentation _ _ _) as [response|e|];
      [destruct (String.eqb (status response) "error")| |];
      cbn [trace result fst snd app filter isLookup];
      (split; [reflexivity | intros hover [= <-] || intros hover [=]]);
      reflexivity.
  - rewrite (explainshellHover_unset this params Htruthy).
    split; [reflexivity | intros hover [=]].
Qed.

(** The lookups below the block: one lookup at most, no explainshell
    query, and markdown if a hover. *)
Lemma documentationHover_facts this (word : option string) :
  List.length (filter isLookup (trace (documentationHover this word))) <= 1
  /\ filter isExplainshellQuery (trace (documentationHover this word)) = []
  /\ forall hover,
       result (documentationHover this word) = Resolved (Some hover) ->
       LSP.mc_kind (LSP.contents hover) = LSP.markdown.
Proof.
  assert (Hmd : forall (lookup : Outcome string) hover,
             then_ lookup markdownHover = Resolved (Some hover) ->
             LSP.mc_kind (LSP.contents hover) = LSP.markdown).
  { intros [doc|e|] hover; simpl; intros [= <-] || intros [=]. reflexivity. }
  unfold documentationHover.
  destruct (Builtins.isBuiltin word);
    [| destruct (ReservedWords.isReservedWord word);
       [| destruct (Executables.isExecutableOnPATH (executables this) word)]];
    cbn [trace result fst snd bind emit ret app filter isLookup
         isExplainshellQuery List.length];
    (split; [lia | split; [reflexivity |]]);
    try apply Hmd.
  intros hover [=].
Qed.

(** X6. Without an explainshell endpoint (not set, or the empty string)
    [onHover] never asks the explainshell service: its trace holds no
    query. *)
Theorem onHover_no_explainshell_query this params :
  JS.truthy config.getExplainshellEndpoint = false ->
  filter isExplainshellQuery (trace (onHover this params)) = [].
Proof.
  intros Hfalsy. rewrite onHover_unfold. cbv zeta.
  rewrite (explainshellHover_unset this params Hfalsy).
  cbn [trace result fst snd app].
  destruct (logRequest_trace this "onHover" params (getWordAtPoint this params))
    as [msg ->].
  rewrite filter_app. cbn [filter isExplainshellQuery app].
  apply (documentationHover_facts this (getWordAtPoint this params)).
Qed.

(** X7. A failure of the explainshell request is not caught: with the
    endpoint set, if [getExplainshellDocumentation] is rejected, [onHover]
    is rejected with the same reason and makes no documentation lookup. *)
Theorem onHover_explainshell_rejected this params
    (endpoint : string) (e : Error) :
  config.getExplainshellEndpoint = Some endpoint ->
  JS.truthy (Some endpoint) = true ->
  Analyzer.getExplainshellDocumentation (analyzer this) params endpoint
    = Rejected e ->
  result (onHover this params) = Rejected e
  /\ filter isLookup (trace (onHover this params)) = [].
Proof.
  intros Hep Htruthy Hrejected. rewrite onHover_unfold. cbv zeta.
  rewrite (explainshellHover_set this params endpoint Hep Htruthy). cbv zeta.
  rewrite Hrejected. cbn [trace result fst snd].
  destruct (logRequest_trace this "onHover" params (getWordAtPoint this params))
    as [msg ->].
  split; reflexivity.
Qed.

(** X8. Unlike [onCompletionResolve], [onHover] does not catch a failed
    documentation lookup: when the explainshell block yields no hover and
    the lookup chosen for the word is rejected, [onHover] is rejected with
    the same reason. *)
Theorem onHover_lookup_rejected this params (e : Error) :
  noExplainshellHover this params ->
  (let word := getWordAtPoint this params in
   Builtins.isBuiltin word = true /\ Builtins.documentation word = Rejected e
   \/ Builtins.isBuiltin word = false
      /\ ReservedWords.isReservedWord word = true
      /\ ReservedWords.documentation word = Rejected e
   \/ Builtins.isBuiltin word = false
      /\ ReservedWords.isReservedWord word = false
      /\ Executables.isExecutableOnPATH (executables this) word = true
      /\ Executables.documentation (executables this) word = Rejected e) ->
  result (onHover this params) = Rejected e.
Proof.
  intros Hsilent Hlookup.
  rewrite (onHover_after_explainshell this params
             (explainshellHover_silent this params Hsilent)).
  rewrite documentationHover_result. cbv zeta in Hlookup.
  destruct Hlookup as [[-> ->] | [(-> & -> & ->) | (-> & -> & -> & ->)]];
    reflexivity.
Qed.

(** X9. Whatever the configuration and the collaborators answer, a hover
    returned by [onHover] is markdown. *)
Theorem onHover_markdown this params (hover : LSP.Hover) :
  result (onHover this params) = Resolved (Some hover) ->
  LSP.mc_kind (LSP.contents hover) = LSP.markdown.
Proof.
  rewrite onHover_unfold. cbv zeta.
  destruct (result (explainshellHover this params)) as [[early|]|e|] eqn:Hblock;
    cbn [result snd]; try discriminate.
  - intros [= <-]. now apply (explainshellHover_facts this params).
  - apply (documentationHover_facts this (getWordAtPoint this params)).
Qed.

(** X10. [onHover] makes at most one documentation lookup, whatever the
    word is and whatever explainshell answers. *)
Theorem onHover_at_most_one_lookup this params :
  List.length (filter isLookup (trace (onHover this params))) <= 1.
Proof.
  rewrite onHover_unfold. cbv zeta.
  destruct (logRequest_trace this "onHover" params (getWordAtPoint this params))
    as [msg Hlog].
  destruct (explainshellHover_facts this params) as [Hblock _].
  destruct (documentationHover_facts this (getWordAtPoint this params))
    as [Hdocs _].
  destruct (result (explainshellHover this params)) as [[early|]|e|];
    cbn [trace fst]; rewrite Hlog, ?filter_app, Hblock;
    cbn [filter isLookup app List.length]; lia.
Qed.

(** *** Start-up *)

(** X11. [initialize] stops at the grammar: unless [initializeParser] is
    fulfilled, neither the scan of PATH nor the scan of the workspace is
    started, and no server is made. *)
Theorem initialize_stops_at_grammar (conn : LSP.Connection)
    (params : LSP.InitializeParams) :
  (forall parser : P, Parser.initializeParser <> Resolved parser) ->
  trace (initialize conn params) = [InitializeParser]
  /\ forall server : BashServer A E,
       result (initialize conn params) <> Resolved server.
Proof.
  intros Hnot. rewrite initialize_unfold.
  destruct Parser.initializeParser as [parser|e|].
  - now elim (Hnot parser).
  - split; [reflexivity | discriminate].
  - split; [reflexivity | discriminate].
Qed.

(** *** Content changes and the queries after them *)

Lemma onDidChangeContent_unfold this (conn : LSP.Connection)
    (change : LSP.TextDocumentChangeEvent) :
  onDidChangeContent this conn change =
  let u := LSP.doc_uri (LSP.document change) in
  let analysis := Analyzer.analyze (analyzer this) u (LSP.document change) in
  (AnalyzerAnalyze u (LSP.document change)
   :: (if config.getHighlightParsingError
       then [SendDiagnostics conn u (fst analysis)]
       else []),
   {| connection := connection this;
      executables := executables this;
      analyzer := snd analysis |}).
Proof.
  unfold onDidChangeContent. cbv zeta.
  destruct (Analyzer.analyze _ _ _) as [diagnostics analyzer'].
  now destruct config.getHighlightParsingError.
Qed.

(** X13. A content change replaces the Analyzer and nothing else of the
    server: connection and executables are kept, so the executables among
    the candidates are unchanged, and a query that follows reads the
    Analyzer [analyze] left behind. *)
Theorem onDidChangeContent_then_query this (conn : LSP.Connection)
    (change : LSP.TextDocumentChangeEvent) params :
  let analyzed :=
    snd (Analyzer.analyze (analyzer this)
           (LSP.doc_uri (LSP.document change)) (LSP.document change)) in
  let this' := result (onDidChangeContent this conn change) in
  connection this' = connection this
  /\ executables this' = executables this
  /\ programCompletions this' = programCompletions this
  /\ allCompletions this' params
     = (reservedWordsCompletions
        ++ Analyzer.findSymbolCompletions analyzed
             (LSP.uri (LSP.textDocument params))
        ++ programCompletions this
        ++ builtinsCompletions)%list
  /\ result (onDefinition this' params)
     = Analyzer.findDefinition analyzed
         (Analyzer.wordAtPoint analyzed
            (LSP.uri (LSP.textDocument params))
            (LSP.line (LSP.position params))
            (LSP.character (LSP.position params))).
Proof.
  intros analyzed this'. unfold this'.
  rewrite onDidChangeContent_unfold. cbv zeta. cbn [result snd].
  fold analyzed. repeat split.
Qed.

(** X14. [register] listens for documents on the connection of the server
    and sends diagnostics on the connection it is given: the listener it
    installs sends diagnostics nowhere else, only for the URI of the
    changed document, only the diagnostics [analyze] returned for it, and
    only with the highlight setting on. *)
Theorem register_diagnostics_destination this (conn : LSP.Connection) :
  trace (register this conn) = [DocumentsListen (connection this)]
  /\ forall (current : BashServer A E) (change : LSP.TextDocumentChangeEvent)
            (c : LSP.Connection) (u : string) (ds : list LSP.Diagnostic),
       In (SendDiagnostics c u ds)
          (trace (didChangeContent (result (register this conn)) current change)) ->
       c = conn
       /\ u = LSP.doc_uri (LSP.document change)
       /\ ds = fst (Analyzer.analyze (analyzer current)
                      (LSP.doc_uri (LSP.document change)) (LSP.document change))
       /\ config.getHighlightParsingError = true.
Proof.
  split; [reflexivity|].
  intros current change c u ds.
  cbn [register result snd bind emit ret didChangeContent].
  rewrite onDidChangeContent_unfold. cbv zeta. cbn [trace fst].
  destruct config.getHighlightParsingError; simpl.
  - intros [Hin | [Hin | []]]; [discriminate|].
    injection Hin as <- <- <-. now repeat split.
  - intros [Hin | []]. discriminate.
Qed.

(** *** The synchronous queries *)

(** X15. Each synchronous query handler writes exactly one line to the
    console of the server's connection and has no other effect: no
    analysis, no diagnostics, no lookup. *)
Theorem query_handlers_log_once this params
    (doc : LSP.TextDocumentIdentifier) (query : string) :
  (exists msg, trace (onDefinition this params)
               = [ConsoleLog (connection this) msg])
  /\ (exists msg, trace (onReferences this params)
                  = [ConsoleLog (connection this) msg])
  /\ (exists msg, trace (onDocumentHighlight this params)
                  = [ConsoleLog (connection this) msg])
  /\ (exists msg, trace (onCompletion this params)
                  = [ConsoleLog (connection this) msg])
  /\ trace (onDocumentSymbol this doc)
     = [ConsoleLog (connection this) "onDocumentSymbol"]
  /\ trace (onWorkspaceSymbol this query)
     = [ConsoleLog (connection this) "onWorkspaceSymbol"].
Proof.
  repeat split; try reflexivity.
  - unfold onDefinition. rewrite trace_bind. eexists. reflexivity.
  - unfold onReferences. rewrite trace_bind. eexists. reflexivity.
  - unfold onDocumentHighlight. rewrite trace_bind. eexists. reflexivity.
  - unfold onCompletion. rewrite trace_bind.
    destruct (getWordAtPoint this params) as [w|];
      [destruct (JS.truthy (Some w)); [destruct (JS.startsWith w "#")|]|];
      eexists; reflexivity.
Qed.

(** X16. The three handlers that only pass a request on: [onReferences]
    returns [findReferences] of the word at the cursor, a null word
    included; [onDocumentSymbol] returns [findSymbols] of the document;
    [onWorkspaceSymbol] returns [search] of the query. *)
Theorem pass_through_handlers this params
    (doc : LSP.TextDocumentIdentifier) (query : string) :
  result (onReferences this params)
  = Analyzer.findReferences (analyzer this)
      (Analyzer.wordAtPoint (analyzer this)
         (LSP.uri (LSP.textDocument params))
         (LSP.line (LSP.position params))
         (LSP.character (LSP.position params)))
  /\ result (onDocumentSymbol this doc)
     = Analyzer.findSymbols (analyzer this) (LSP.uri doc)
  /\ result (onWorkspaceSymbol this query)
     = Analyzer.search (analyzer this) query.
Proof.
  unfold onReferences, onDocumentSymbol, onWorkspaceSymbol.
  rewrite !result_bind. repeat split.
Qed.

End Coverage.

(** * Further requests on the workspace of [Demo] *)

Module Walkthrough.

Import Demo.Defaults.

(** [build() ec] is edited into [build() echo]; the cursor stays on the
    word being typed (column 9). The request after the edit is answered by
    the server the content-change listener left. *)
Lemma onCompletion_narrows_witness :
  let after := result (onDidChangeContent Faults.typingServer Faults.editor
                         {| LSP.document := Faults.typed |}) in
  getWordAtPoint Faults.typingServer (Demo.at_col 9) = Some "ec"
  /\ getWordAtPoint after (Demo.at_col 9) = Some "echo"
  /\ map label (result (onCompletion Faults.typingServer (Demo.at_col 9)))
     = ["echo"; "echo"]
  /\ result (onCompletion after (Demo.at_col 9))
     = filter (fun item => JS.startsWith (label item) "echo")
              (result (onCompletion Faults.typingServer (Demo.at_col 9))).
Proof.
  intros after.
  split; [reflexivity | split; [reflexivity | split; [reflexivity |]]].
  exact (onCompletion_narrows Faults.typingServer after
           (Demo.at_col 9) (Demo.at_col 9) "ec" "ho"
           eq_refl eq_refl eq_refl eq_refl eq_refl).
Defined.

(** [echo] is a builtin and is on PATH; the cursor is on a blank. *)
Lemma onCompletion_duplicates_witness :
  2 <= List.length (filter (labelled "echo")
                      (result (onCompletion Demo.server (Demo.at_col 7)))).
Proof.
  apply (onCompletion_duplicates Demo.server (Demo.at_col 7) "echo").
  - simpl. auto.
  - simpl. auto.
  - exact I.
Defined.

Lemma onCompletionResolve_of_candidate_witness :
  name (data Faults.echoBuiltin) = label Faults.echoBuiltin
  /\ result (onCompletionResolve Demo.server Faults.echoBuiltin)
     = Resolved {| label := "echo";
                   kind := LSP.SymbolKind_Interface;
                   detail := None;
                   documentation := Some (manPage "help echo");
                   data := {| name := "echo"; type := Builtin |} |}.
Proof.
  destruct (onCompletionResolve_of_candidate Demo.server Faults.echoBuiltin)
    as (Hname & _ & _).
  - simpl. do 8 right. left. reflexivity.
  - split; [exact Hname | reflexivity].
Defined.

Lemma onCompletionResolve_idempotent_witness :
  result (onCompletionResolve Demo.server
            (getMarkdownCompletionItem Faults.echoBuiltin "help echo"))
  = Resolved (getMarkdownCompletionItem Faults.echoBuiltin "help echo").
Proof.
  apply (onCompletionResolve_idempotent Demo.server Faults.echoBuiltin).
  reflexivity.
Defined.

(** No endpoint in the configuration. *)
Lemma onHover_no_explainshell_query_witness :
  filter isExplainshellQuery (trace (onHover Demo.server (Demo.at_col 8))) = [].
Proof.
  apply (onHover_no_explainshell_query Demo.server (Demo.at_col 8)).
  reflexivity.
Defined.

(** The service cannot be reached. *)
Lemma onHover_explainshell_rejected_witness :
  result (onHover (analyzerOps := Faults.analyzerOffline)
                  (configOps := Demo.cfg (Some Demo.endpoint) true)
                  Demo.server (Demo.at_col 8))
  = Rejected "explainshell: connection refused".
Proof.
  apply (onHover_explainshell_rejected
           (analyzerOps := Faults.analyzerOffline)
           (configOps := Demo.cfg (Some Demo.endpoint) true)
           Demo.server (Demo.at_col 8) Demo.endpoint
           "explainshell: connection refused");
    reflexivity.
Defined.

(** The cursor is on the builtin [echo], for which [help] fails. *)
Lemma onHover_lookup_rejected_witness :
  result (onHover (builtinsOps := Faults.builtinsNoHelp)
                  Demo.server (Demo.at_col 8))
  = Rejected "help: no help topics match".
Proof.
  apply (onHover_lookup_rejected (builtinsOps := Faults.builtinsNoHelp)
           Demo.server (Demo.at_col 8) "help: no help topics match").
  - left. reflexivity.
  - left. split; reflexivity.
Defined.

Lemma onHover_markdown_witness :
  LSP.mc_kind (LSP.contents {| LSP.contents := manPage "help echo" |})
  = LSP.markdown.
Proof.
  apply (onHover_markdown Demo.server (Demo.at_col 8)
           {| LSP.contents := manPage "help echo" |}).
  reflexivity.
Defined.

(** The grammar cannot be loaded. *)
Lemma initialize_stops_at_grammar_witness :
  trace (initialize (parserOps := Demo.parser false)
                    Demo.client {| LSP.rootPath := Some "/work" |})
  = [InitializeParser].
Proof.
  apply (initialize_stops_at_grammar (parserOps := Demo.parser false)
           Demo.client {| LSP.rootPath := Some "/work" |}).
  intros parser. discriminate.
Defined.

(** The server was started on one connection and registered on another:
    the diagnostics of an edit go to the latter. *)
Lemma register_diagnostics_destination_witness :
  let sent :=
    trace (didChangeContent (result (register Demo.server Faults.editor))
             Demo.server {| LSP.document := Faults.edited |}) in
  Demo.client <> Faults.editor
  /\ In (SendDiagnostics Faults.editor "file:///a.sh" []) sent
  /\ config.getHighlightParsingError = true.
Proof.
  intros sent.
  assert (Hin : In (SendDiagnostics Faults.editor "file:///a.sh" []) sent)
    by (simpl; right; left; reflexivity).
  split; [discriminate | split; [exact Hin |]].
  apply (proj2 (register_diagnostics_destination Demo.server Faults.editor)
           Demo.server {| LSP.document := Faults.edited |}
           Faults.editor "file:///a.sh" [] Hin).
Defined.

(** After the edit [deploy() build], the definition of [deploy] is found
    and the one of [build] is gone. *)
Example definition_after_edit :
  let edit := onDidChangeContent Demo.server Faults.editor
                {| LSP.document := Faults.edited |} in
  trace edit = [AnalyzerAnalyze "file:///a.sh" Faults.edited;
                SendDiagnostics Faults.editor "file:///a.sh" []]
  /\ result (onDefinition (result edit) (Demo.at_col 10)) = []
  /\ map label (result (onCompletion (result edit) (Demo.at_col 8)))
     = ["if"; "then"; "else"; "fi"; "deploy"; "ls"; "echo"; "grep";
        "cd"; "echo"; "export"].
Proof. repeat split. Qed.

End Walkthrough.
